(** * markitdownapi: the conversion request handler of [app.py]

    A shallow embedding of the Flask application in [src/app.py]: the two
    views [root] and [convert_files], the Python values they inspect, and
    the external collaborators they call (Flask's JSON loader, [uuid],
    [base64], the filesystem, the OpenAI client and the MarkItDown engine).

    The collaborators are not part of the repository.  They are gathered in
    an [environment] record whose fields give the outcome of every call, so
    that each statement below holds for whatever those libraries answer. *)

From Stdlib Require Import ZArith Floats.PrimFloat Strings.Ascii Strings.Byte.
From stdpp Require Import gmap strings pretty list fin_maps.

Set Warnings "-register-all".

(** ** Python values

    What [json.loads] produces: [None], [bool], [int], [float], [str],
    [list] and [dict] with string keys. *)

Inductive json :=
| JNull
| JBool (b : bool)
| JInt (z : Z)
| JFloat (f : float)
| JStr (s : string)
| JArr (l : list json)
| JObj (m : gmap string json).

Definition bytes := list byte.

(** [type(v).__name__] *)
Definition type_name (v : json) : string :=
  match v with
  | JNull => "NoneType"
  | JBool _ => "bool"
  | JInt _ => "int"
  | JFloat _ => "float"
  | JStr _ => "str"
  | JArr _ => "list"
  | JObj _ => "dict"
  end.

(** [bool(v)]: the test behind [if v], [not v] and [v and ...]. *)
Definition truthy (v : json) : bool :=
  match v with
  | JNull => false
  | JBool b => b
  | JInt z => negb (z =? 0)%Z
  | JFloat f => negb (PrimFloat.eqb f PrimFloat.zero)
  | JStr s => negb (String.eqb s EmptyString)
  | JArr l => match l with [] => false | _ => true end
  | JObj m => negb (bool_decide (m = ∅))
  end.

Definition is_dict (v : json) : bool :=
  match v with JObj _ => true | _ => false end.

(** ** Exceptions and outcomes of calls *)

Record exn := Exn { exn_class : string; exn_str : string }.

Inductive outcome (A : Type) :=
| Returns (a : A)
| Raises (e : exn).
Arguments Returns {A} a.
Arguments Raises {A} e.

Definition AttributeError (v : json) (attr : string) : exn :=
  Exn "AttributeError"
      ("'" +:+ type_name v +:+ "' object has no attribute '" +:+ attr +:+ "'").

Definition TypeError (msg : string) : exn := Exn "TypeError" msg.

Definition KeyError (key : string) : exn := Exn "KeyError" ("'" +:+ key +:+ "'").

(** ** Responses *)

Inductive payload_body :=
| Text (s : string)
| Json (j : json).

Record response := Response { body : payload_body; status : Z }.

(** [jsonify(j), code] *)
Definition jsonify (j : json) (code : Z) : response := Response (Json j) code.

(** [jsonify({"error": msg}), 500] *)
Definition error_response (msg : string) : response :=
  jsonify (JObj {[ "error" := JStr msg ]}) 500.

(** ** The filesystem

    Absolute, normalised paths are lists of components.  Symbolic links are
    not modelled. *)

Definition path := list string.

Inductive node :=
| Dir
| File (content : bytes).

Fixpoint split_sep (s acc : string) : list string :=
  match s with
  | EmptyString => [acc]
  | String c s' =>
      if Ascii.eqb c "/"%char then acc :: split_sep s' EmptyString
      else split_sep s' (acc +:+ String c EmptyString)
  end.

Definition enter (cur : path) (c : string) : path :=
  if String.eqb c EmptyString then cur
  else if String.eqb c "." then cur
  else if String.eqb c ".." then removelast cur
  else cur ++ [c].

Definition starts_with_sep (s : string) : bool :=
  match s with
  | String c _ => Ascii.eqb c "/"%char
  | EmptyString => false
  end.

Fixpoint ends_with_sep (s : string) : bool :=
  match s with
  | EmptyString => false
  | String c EmptyString => Ascii.eqb c "/"%char
  | String _ s' => ends_with_sep s'
  end.

(** The location a path string names, seen from the current directory. *)
Definition resolve (cwd : path) (s : string) : path :=
  fold_left enter (split_sep s EmptyString) (if starts_with_sep s then [] else cwd).

(** [os.path.join(a, b)] of [posixpath]. *)
Definition path_join (a b : string) : string :=
  if starts_with_sep b then b
  else if String.eqb a EmptyString || ends_with_sep a then a +:+ b
  else a +:+ "/" +:+ b.

Definition ancestors (p : path) : list path :=
  (λ k, take k p) <$> seq 0 (S (length p)).

Definition mkdir (q : path) (fs : gmap path node) : gmap path node :=
  match fs !! q with
  | Some _ => fs
  | None => <[q := Dir]> fs
  end.

(** A successful [os.makedirs(p, exist_ok=True)]. *)
Definition makedirs_fs (p : path) (fs : gmap path node) : gmap path node :=
  foldr mkdir fs (ancestors p).

(** [os.path.exists] *)
Definition path_exists (fs : gmap path node) (p : path) : bool :=
  bool_decide (is_Some (fs !! p)).

(** [shutil.rmtree(root, ignore_errors=True)]: everything at or below
    [root] goes, except the entries whose removal fails; the failures are
    not reported. *)
Definition rmtree_fs (fails : path → bool) (root : path)
    (fs : gmap path node) : gmap path node :=
  filter (λ kv, ¬ root `prefix_of` kv.1 ∨ fails kv.1 = true) fs.

(** ** The external collaborators *)

(** The keyword arguments [client_kwargs] handed to [OpenAI]. *)
Record client_kwargs := ClientKwargs {
  api_key : json;
  base_url : option json
}.

(** The two ways the handler calls the [MarkItDown] constructor. *)
Inductive MarkItDown :=
| MarkItDown_plain
| MarkItDown_llm (llm_client : client_kwargs) (llm_model : json).

(** Calls to the collaborators, in the order the handler makes them. *)
Inductive event :=
| CallMakedirs (p : string)
| CallOpenAI (kw : client_kwargs)
| CallMarkItDown (md : MarkItDown)
| CallOpen (p : string)
| CallWrite (p : string) (b : bytes)
| CallConvert (md : MarkItDown) (p : string)
| CallRmtree (p : string).

Record environment := Environment {
  (** the variable [MARKITDOWN_TMPDIR] of the process environment, when set *)
  env_getenv_tmpdir : option string;
  (** current directory of the process *)
  env_cwd : path;
  (** Flask older than 2.1: [get_json] answers [None] when the request
      does not announce JSON instead of raising *)
  env_flask_legacy : bool;
  (** [str(uuid.uuid4())] for this request *)
  env_uuid4 : string;
  (** [str(v)] for a value that is not a [str] *)
  env_str : json → string;
  (** [base64.b64decode(v)] *)
  env_b64decode : json → outcome bytes;
  (** an error raised by [os.makedirs] *)
  env_makedirs : string → option exn;
  (** an error raised by the [OpenAI] constructor *)
  env_openai : client_kwargs → option exn;
  (** an error raised by the [MarkItDown] constructor *)
  env_markitdown : MarkItDown → option exn;
  (** an error raised by [open(p, "wb")] for the [i]-th entry *)
  env_open : nat → string → option exn;
  (** an error raised by [f.write] for the [i]-th entry *)
  env_write : nat → string → option exn;
  (** [md.convert(p).text_content] for the [i]-th entry, whose file holds
      the given bytes *)
  env_convert : nat → MarkItDown → string → bytes → outcome string;
  (** entries that [shutil.rmtree] fails to remove *)
  env_rmtree_fails : path → bool
}.

(** Lines 22-23: the base directory, read once at start-up. *)
Definition DEFAULT_TMPDIR : string := "/tmp/".

Definition MARKITDOWN_TMPDIR (env : environment) : string :=
  default DEFAULT_TMPDIR (env_getenv_tmpdir env).

(** ** The request body as Flask sees it *)

Inductive request_body :=
| NotJson                      (* no body announced as JSON *)
| Malformed (description : string)  (* announced as JSON, does not parse *)
| Parsed (j : json).

Definition BadRequest (description : string) : exn :=
  Exn "BadRequest" ("400 Bad Request: " +:+ description).

Definition UnsupportedMediaType : exn :=
  Exn "UnsupportedMediaType"
      "415 Unsupported Media Type: Did not attempt to load JSON data because the request Content-Type was not 'application/json'.".

(** [request.get_json()] with its default arguments ([silent=False]). *)
Definition get_json (env : environment) (b : request_body) : outcome json :=
  match b with
  | Parsed j => Returns j
  | Malformed description => Raises (BadRequest description)
  | NotJson =>
      if env_flask_legacy env then Returns JNull
      else Raises UnsupportedMediaType
  end.

(** ** Control flow of a view function

    A statement runs on, leaves the function with [return], or raises.  The
    state carries the filesystem, the calls made so far and the local
    variable [working_dir], which the [finally] block looks up in
    [locals()]. *)

Record state := State {
  st_fs : gmap path node;
  st_log : list event;
  st_working_dir : option string
}.

Inductive flow (A : Type) :=
| Next (a : A)
| Return (r : response)
| Raise (e : exn).
Arguments Next {A} a.
Arguments Return {A} r.
Arguments Raise {A} e.

Definition M (A : Type) : Type := state → flow A * state.

#[global] Instance M_ret : MRet M := λ A a st, (Next a, st).

#[global] Instance M_bind : MBind M := λ A B f m st,
  match m st with
  | (Next a, st') => f a st'
  | (Return r, st') => (Return r, st')
  | (Raise e, st') => (Raise e, st')
  end.

Definition py_return {A} (r : response) : M A := λ st, (Return r, st).
Definition py_raise {A} (e : exn) : M A := λ st, (Raise e, st).

Definition call (ev : event) : M unit := λ st,
  (Next (), State (st_fs st) (st_log st ++ [ev]) (st_working_dir st)).

Definition update_fs (f : gmap path node → gmap path node) : M unit := λ st,
  (Next (), State (f (st_fs st)) (st_log st) (st_working_dir st)).

Definition assign_working_dir (wd : string) : M unit := λ st,
  (Next (), State (st_fs st) (st_log st) (Some wd)).

Definition may_raise (o : option exn) : M unit :=
  match o with
  | Some e => py_raise e
  | None => mret ()
  end.

Definition of_outcome {A} (o : outcome A) : M A :=
  match o with
  | Returns a => mret a
  | Raises e => py_raise e
  end.

(** ** Python operations the handler applies to request data *)

(** [obj.get(key, dflt)]: only a [dict] has the method. *)
Definition py_get (obj : json) (key : string) (dflt : json) : M json :=
  match obj with
  | JObj m => mret (default dflt (m !! key))
  | _ => py_raise (AttributeError obj "get")
  end.

(** [key in c] for a [str] key: key of a [dict], substring of a [str],
    element of a [list]. *)
Definition py_in (key : string) (c : json) : M bool :=
  match c with
  | JObj m => mret (bool_decide (is_Some (m !! key)))
  | JStr s => mret (bool_decide (is_Some (String.index 0 key s)))
  | JArr l =>
      mret (existsb (λ x, match x with
                          | JStr s => String.eqb s key
                          | _ => false
                          end) l)
  | _ =>
      py_raise (TypeError ("argument of type '" +:+ type_name c
                           +:+ "' is not iterable"))
  end.

(** [c[key]] for a [str] key. *)
Definition py_getitem (c : json) (key : string) : M json :=
  match c with
  | JObj m =>
      match m !! key with
      | Some v => mret v
      | None => py_raise (KeyError key)
      end
  | JStr _ => py_raise (TypeError "string indices must be integers, not 'str'")
  | JArr _ =>
      py_raise (TypeError "list indices must be integers or slices, not str")
  | _ =>
      py_raise (TypeError ("'" +:+ type_name c
                           +:+ "' object is not subscriptable"))
  end.

(** [os.path.join(working_dir, file_name)] *)
Definition os_path_join (working_dir : string) (file_name : json) : M string :=
  match file_name with
  | JStr s => mret (path_join working_dir s)
  | _ =>
      py_raise (TypeError
        ("join() argument must be str, bytes, or os.PathLike object, not '"
         +:+ type_name file_name +:+ "'"))
  end.

(** The entry appended to [results]. *)
Definition result_entry (file_name : json) (conversion_output : string) : json :=
  JObj (<["fileName" := file_name]>
        (<["conversionResult" := JStr conversion_output]> ∅)).

(** ** The views *)

Section Handler.
Context (env : environment).

(** [str(v)] as the f-strings apply it *)
Definition py_str (v : json) : string :=
  match v with
  | JStr s => s
  | _ => env_str env v
  end.

Definition locate (s : string) : path := resolve (env_cwd env) s.

(** [all(k in llm_config for k in ["openaiApiKey", "llmModel"])] *)
Definition all_keys_in (llm_config : json) : M bool :=
  has_key ← py_in "openaiApiKey" llm_config;
  if has_key : bool then py_in "llmModel" llm_config else mret false.

(** Lines 75-89: the engine with or without an LLM. *)
Definition make_engine (llm_config : json) : M MarkItDown :=
  use_llm ← (if truthy llm_config then all_keys_in llm_config
             else mret false);
  if use_llm : bool then
    openai_api_key ← py_getitem llm_config "openaiApiKey";
    llm_model ← py_getitem llm_config "llmModel";
    has_base_url ← py_in "openaiBaseUrl" llm_config;
    kw ← (if has_base_url : bool then
            url ← py_getitem llm_config "openaiBaseUrl";
            mret (ClientKwargs openai_api_key (Some url))
          else mret (ClientKwargs openai_api_key None));
    call (CallOpenAI kw);;
    may_raise (env_openai env kw);;
    call (CallMarkItDown (MarkItDown_llm kw llm_model));;
    may_raise (env_markitdown env (MarkItDown_llm kw llm_model));;
    mret (MarkItDown_llm kw llm_model)
  else
    call (CallMarkItDown MarkItDown_plain);;
    may_raise (env_markitdown env MarkItDown_plain);;
    mret MarkItDown_plain.

(** Lines 95-128: the body of the loop for the [i]-th entry. *)
Definition process_item (md : MarkItDown) (working_dir : string)
    (i : nat) (item : json) : M json :=
  file_name ← py_get item "fileName" JNull;
  file_content_base64 ← py_get item "fileContent" JNull;
  if negb (truthy file_name) || negb (truthy file_content_base64) then
    py_return (error_response "Missing fileName or fileContent")
  else
    file_bytes ← match env_b64decode env file_content_base64 with
                 | Returns b => mret b
                 | Raises e =>
                     py_return (error_response
                       ("Failed to decode base64 for " +:+ py_str file_name
                        +:+ ": " +:+ exn_str e))
                 end;
    file_path ← os_path_join working_dir file_name;
    call (CallOpen file_path);;
    may_raise (env_open env i file_path);;
    update_fs (<[locate file_path := File []]>);;
    call (CallWrite file_path file_bytes);;
    may_raise (env_write env i file_path);;
    update_fs (<[locate file_path := File file_bytes]>);;
    call (CallConvert md file_path);;
    conversion_output ←
      match env_convert env i md file_path file_bytes with
      | Returns t => mret t
      | Raises e =>
          py_return (error_response
            ("Conversion failed for file: " +:+ py_str file_name
             +:+ ". Error: " +:+ exn_str e))
      end;
    mret (result_entry file_name conversion_output).

(** Lines 94-128: [for item in data], appending to [results]. *)
Fixpoint process_items (md : MarkItDown) (working_dir : string) (i : nat)
    (data results : list json) : M (list json) :=
  match data with
  | [] => mret results
  | item :: rest =>
      r ← process_item md working_dir i item;
      process_items md working_dir (S i) rest (results ++ [r])
  end.

(** Lines 55-130: the [try] block. *)
Definition convert_files_try (req : request_body) : M response :=
  payload ← of_outcome (get_json env req);
  match payload with
  | JNull => py_return (error_response "No JSON payload provided")
  | _ =>
      llm_config ← py_get payload "llmConfig" JNull;
      data ← py_get payload "data" (JArr []);
      match data with
      | JArr ((_ :: _) as items) =>
          let unique_id := env_uuid4 env in
          let working_dir := path_join (MARKITDOWN_TMPDIR env) unique_id in
          assign_working_dir working_dir;;
          call (CallMakedirs working_dir);;
          may_raise (env_makedirs env working_dir);;
          update_fs (makedirs_fs (locate working_dir));;
          md ← make_engine llm_config;
          results ← process_items md working_dir 0 items [];
          py_return (jsonify (JArr results) 200)
      | _ => py_return (error_response "No valid 'data' array provided")
      end
  end.

(** Lines 136-140: the [finally] block. *)
Definition cleanup (st : state) : state :=
  match st_working_dir st with
  | Some working_dir =>
      if path_exists (st_fs st) (locate working_dir) then
        State (rmtree_fs (env_rmtree_fails env) (locate working_dir) (st_fs st))
              (st_log st ++ [CallRmtree working_dir])
              (st_working_dir st)
      else st
  | None => st
  end.

(** Lines 132-134: [except Exception as e]. *)
Definition handle_exception (f : flow response) : response :=
  match f with
  | Next r | Return r => r
  | Raise e => error_response (exn_str e)
  end.

(** [POST /convert], started on the filesystem [fs]. *)
Definition convert_files (req : request_body) (fs : gmap path node)
    : response * state :=
  let '(f, st) := convert_files_try req (State fs [] None) in
  (handle_exception f, cleanup st).

(** [GET /]: the view returns the string ["ok"], which Flask sends as the
    body of a 200 response. *)
Definition root : response := Response (Text "ok") 200.

End Handler.

(** The two routes of [app]. *)
Inductive view :=
| view_root
| view_convert_files.

(** The rules as [app.py] declares them.  The methods that Flask adds to a
    rule on its own, [HEAD] and [OPTIONS], are not modelled. *)
Definition url_map (method rule : string) : option view :=
  if String.eqb method "GET" && String.eqb rule "/" then Some view_root
  else if String.eqb method "POST" && String.eqb rule "/convert"
       then Some view_convert_files
  else None.

Definition dispatch (env : environment) (method rule : string)
    (req : request_body) (fs : gmap path node) : option (response * state) :=
  match url_map method rule with
  | Some view_root => Some (root, State fs [] None)
  | Some view_convert_files => Some (convert_files env req fs)
  | None => None
  end.

(** ** Vocabulary of the statements *)

(** A JSON object whose [data] member is the array [data]; [fields] holds
    the other members. *)
Definition conversion_request (fields : gmap string json) (data : list json)
    : request_body :=
  Parsed (JObj (<["data" := JArr data]> fields)).

(** [payload.get("llmConfig", None)] *)
Definition llm_config_of (fields : gmap string json) : json :=
  default JNull (fields !! "llmConfig").

(** The [llmConfig] member is absent, [null] or an object. *)
Definition config_is_optional_object (llm_config : json) : Prop :=
  llm_config = JNull ∨ is_dict llm_config = true.

(** [llm_config] takes lines 75-89 as far as a constructor.  A falsy value
    and an object always do.  A string or an array does when it lacks one
    of the two key names, as a substring or as an element: with both, the
    subscript [llm_config["openaiApiKey"]] raises.  A number other than
    zero and [true] never do: the test [k in llm_config] raises. *)
Definition config_selects_engine (llm_config : json) : bool :=
  match llm_config with
  | JNull | JObj _ => true
  | JBool _ | JInt _ | JFloat _ => negb (truthy llm_config)
  | JStr s =>
      negb (bool_decide (is_Some (String.index 0 "openaiApiKey" s))
            && bool_decide (is_Some (String.index 0 "llmModel" s)))
  | JArr l =>
      negb (existsb (λ x, match x with
                          | JStr s => String.eqb s "openaiApiKey"
                          | _ => false
                          end) l
            && existsb (λ x, match x with
                             | JStr s => String.eqb s "llmModel"
                             | _ => false
                             end) l)
  end.

(** The engine mode in the words of the specification: LLM-augmented,
    with the key, the optional base URL and the model, when [llmConfig]
    holds both [openaiApiKey] and [llmModel]; plain otherwise. *)
Definition spec_llm_mode (llm_config : json) : MarkItDown :=
  match llm_config with
  | JObj m =>
      match m !! "openaiApiKey", m !! "llmModel" with
      | Some key, Some model =>
          MarkItDown_llm (ClientKwargs key (m !! "openaiBaseUrl")) model
      | _, _ => MarkItDown_plain
      end
  | _ => MarkItDown_plain
  end.

Definition is_llm (md : MarkItDown) : bool :=
  match md with
  | MarkItDown_llm _ _ => true
  | MarkItDown_plain => false
  end.

(** The constructor calls that build an engine. *)
Definition construction (md : MarkItDown) : list event :=
  match md with
  | MarkItDown_plain => [CallMarkItDown MarkItDown_plain]
  | MarkItDown_llm kw _ => [CallOpenAI kw; CallMarkItDown md]
  end.

Definition is_construction (ev : event) : bool :=
  match ev with
  | CallOpenAI _ | CallMarkItDown _ => true
  | _ => false
  end.

Definition is_file_call (ev : event) : bool :=
  match ev with
  | CallOpen _ | CallWrite _ _ | CallConvert _ _ => true
  | _ => false
  end.

Definition set_rmtree_fails (fails : path → bool) (env : environment)
    : environment :=
  {| env_getenv_tmpdir := env_getenv_tmpdir env;
     env_cwd := env_cwd env;
     env_flask_legacy := env_flask_legacy env;
     env_uuid4 := env_uuid4 env;
     env_str := env_str env;
     env_b64decode := env_b64decode env;
     env_makedirs := env_makedirs env;
     env_openai := env_openai env;
     env_markitdown := env_markitdown env;
     env_open := env_open env;
     env_write := env_write env;
     env_convert := env_convert env;
     env_rmtree_fails := fails |}.

Section Vocabulary.
Context (env : environment).

(** The value of the local variable [working_dir]. *)
Definition working_dir : string :=
  path_join (MARKITDOWN_TMPDIR env) (env_uuid4 env).

(** The constructors of the engine [md] raise nothing. *)
Definition constructors_return (md : MarkItDown) : Prop :=
  match md with
  | MarkItDown_plain => env_markitdown env md = None
  | MarkItDown_llm kw _ =>
      env_openai env kw = None ∧ env_markitdown env md = None
  end.

(** The request gets as far as the loop with the engine [md]: the working
    directory is created and the engine that [llmConfig] asks for is
    built. *)
Definition reaches_loop (fields : gmap string json) (md : MarkItDown)
    : Prop :=
  env_makedirs env working_dir = None
  ∧ config_selects_engine (llm_config_of fields) = true
  ∧ md = spec_llm_mode (llm_config_of fields)
  ∧ constructors_return md.

(** The [i]-th entry is a well-formed [FileEntry] called [name] that
    decodes, is saved and converts to [text]. *)
Definition entry_converts (md : MarkItDown) (i : nat) (item : json)
    (name text : string) : Prop :=
  ∃ (m : gmap string json) (content : json) (file_bytes : bytes),
    item = JObj m
    ∧ m !! "fileName" = Some (JStr name) ∧ name ≠ EmptyString
    ∧ m !! "fileContent" = Some content ∧ truthy content = true
    ∧ env_b64decode env content = Returns file_bytes
    ∧ env_open env i (path_join working_dir name) = None
    ∧ env_write env i (path_join working_dir name) = None
    ∧ env_convert env i md (path_join working_dir name) file_bytes
      = Returns text.

(** The entries from position [i] on all convert, giving [results]. *)
Inductive all_convert (md : MarkItDown) : nat → list json → list json → Prop :=
| all_convert_nil i : all_convert md i [] []
| all_convert_cons i item name text data results :
    entry_converts md i item name text →
    all_convert md (S i) data results →
    all_convert md i (item :: data)
      (JObj {[ "fileName" := JStr name; "conversionResult" := JStr text ]}
       :: results).

(** The three ways an entry that is an object fails, with the message the
    handler answers. *)
Inductive entry_fails (md : MarkItDown) (i : nat) : json → string → Prop :=
| fails_missing (m : gmap string json) :
    truthy (default JNull (m !! "fileName")) = false
    ∨ truthy (default JNull (m !! "fileContent")) = false →
    entry_fails md i (JObj m) "Missing fileName or fileContent"
| fails_decode (m : gmap string json) name content e :
    m !! "fileName" = Some name → truthy name = true →
    m !! "fileContent" = Some content → truthy content = true →
    env_b64decode env content = Raises e →
    entry_fails md i (JObj m)
      ("Failed to decode base64 for " +:+ py_str env name
       +:+ ": " +:+ exn_str e)
| fails_convert (m : gmap string json) name content file_bytes e :
    m !! "fileName" = Some (JStr name) → name ≠ EmptyString →
    m !! "fileContent" = Some content → truthy content = true →
    env_b64decode env content = Returns file_bytes →
    env_open env i (path_join working_dir name) = None →
    env_write env i (path_join working_dir name) = None →
    env_convert env i md (path_join working_dir name) file_bytes
    = Raises e →
    entry_fails md i (JObj m)
      ("Conversion failed for file: " +:+ name
       +:+ ". Error: " +:+ exn_str e).

End Vocabulary.

(** A computation that touches neither the filesystem nor [working_dir],
    calls only constructors and never leaves the view with [return]. *)
Definition constructs_only {A} (m : M A) : Prop :=
  ∀ st f st', m st = (f, st') →
    st_fs st' = st_fs st
    ∧ st_working_dir st' = st_working_dir st
    ∧ (∃ evs, st_log st' = st_log st ++ evs
              ∧ Forall (λ ev, is_construction ev = true) evs)
    ∧ (∀ r, f ≠ Return r).

(** Lines 74-130: what the [try] block does once [os.makedirs] is back. *)
Definition after_makedirs (env : environment) (llm_config : json)
    (data : list json) : M response :=
  md ← make_engine env llm_config;
  results ← process_items env md
              (path_join (MARKITDOWN_TMPDIR env) (env_uuid4 env)) 0 data [];
  py_return (jsonify (JArr results) 200).

(** The [error] member of a response body. *)
Definition error_of (r : response) : option json :=
  match body r with
  | Json (JObj m) => m !! "error"
  | _ => None
  end.

(** A computation that leaves [working_dir] alone, makes file calls only
    and changes the filesystem at paths in [P] only, where it leaves an
    entry. *)
Definition touches_only (P : path → Prop) {A} (m : M A) : Prop :=
  ∀ st f st', m st = (f, st') →
    st_working_dir st' = st_working_dir st
    ∧ (∃ evs, st_log st' = st_log st ++ evs
              ∧ Forall (λ ev, is_file_call ev = true) evs)
    ∧ (∀ p, st_fs st' !! p = st_fs st !! p
            ∨ (P p ∧ is_Some (st_fs st' !! p))).

(** The path at which the handler saves the entry [item]. *)
Definition saved_at (env : environment) (item : json) (p : path) : Prop :=
  ∃ (m : gmap string json) name,
    item = JObj m ∧ m !! "fileName" = Some (JStr name)
    ∧ p = locate env (path_join (working_dir env) name).

(** Standard base64 in the words of the specification, as RFC 4648 has
    it: groups of four characters of the alphabet, the last group ending
    in at most two padding characters. *)
Definition is_base64_char (c : ascii) : bool :=
  let n := N_of_ascii c in
  ((65 <=? n)%N && (n <=? 90)%N) || ((97 <=? n)%N && (n <=? 122)%N)
  || ((48 <=? n)%N && (n <=? 57)%N) || (n =? 43)%N || (n =? 47)%N.

Fixpoint spec_standard_base64 (s : string) : bool :=
  match s with
  | EmptyString => true
  | String a (String b (String c (String d rest))) =>
      is_base64_char a && is_base64_char b
      && match rest with
         | EmptyString =>
             (is_base64_char c || Ascii.eqb c "="%char)
             && (is_base64_char d || Ascii.eqb d "="%char)
             && (is_base64_char c || negb (is_base64_char d))
         | _ => is_base64_char c && is_base64_char d
                && spec_standard_base64 rest
         end
  | _ => false
  end.

(** ** A concrete environment

    Used to run the handler on sample requests: a decoder that follows
    CPython's lenient [binascii.a2b_base64], [str] on the scalars (the text
    of floats and containers, which no sample run needs, is abbreviated),
    and a filesystem with [/], [/tmp] and [/etc].  The engine, [open] and
    [write] are stand-ins: the engine passes text through and, so that a
    failing conversion can be run, raises on content holding a NUL byte;
    [open] and [write] never raise.  The statements quantify over the
    environment and do not depend on these choices. *)

Module Sample.

Definition b64_value (c : ascii) : option N :=
  let n := N_of_ascii c in
  if (65 <=? n)%N && (n <=? 90)%N then Some (n - 65)%N
  else if (97 <=? n)%N && (n <=? 122)%N then Some (n - 71)%N
  else if (48 <=? n)%N && (n <=? 57)%N then Some (n + 4)%N
  else if (n =? 43)%N then Some 62%N
  else if (n =? 47)%N then Some 63%N
  else None.

Definition octet (n : N) : byte := byte_of_ascii (ascii_of_N (n mod 256)).

Definition binascii_Error (msg : string) : exn := Exn "binascii.Error" msg.

Fixpoint a2b_base64 (s : string) (quad_pos : nat) (leftchar : N)
    (pads : nat) (out : bytes) : outcome bytes :=
  match s with
  | EmptyString =>
      match quad_pos with
      | 0 => Returns out
      | 1 => Raises (binascii_Error
               ("Invalid base64-encoded string: number of data characters ("
                +:+ pretty (length out / 3 * 4 + 1)
                +:+ ") cannot be 1 more than a multiple of 4"))
      | _ => Raises (binascii_Error "Incorrect padding")
      end
  | String c s' =>
      if Ascii.eqb c "="%char then
        if (2 <=? quad_pos) && (4 <=? quad_pos + S pads) then Returns out
        else a2b_base64 s' quad_pos leftchar
               (if 2 <=? quad_pos then S pads else pads) out
      else
        match b64_value c with
        | None => a2b_base64 s' quad_pos leftchar pads out
        | Some v =>
            match quad_pos with
            | 0 => a2b_base64 s' 1 v 0 out
            | 1 => a2b_base64 s' 2 (N.land v 15) 0
                     (out ++ [octet (N.lor (N.shiftl leftchar 2) (N.shiftr v 4))])
            | 2 => a2b_base64 s' 3 (N.land v 3) 0
                     (out ++ [octet (N.lor (N.shiftl leftchar 4) (N.shiftr v 2))])
            | _ => a2b_base64 s' 0 0%N 0
                     (out ++ [octet (N.lor (N.shiftl leftchar 6) v)])
            end
        end
  end.

Fixpoint is_ascii (s : string) : bool :=
  match s with
  | EmptyString => true
  | String c s' => (N_of_ascii c <? 128)%N && is_ascii s'
  end.

Definition b64decode (v : json) : outcome bytes :=
  match v with
  | JStr s =>
      if is_ascii s then a2b_base64 s 0 0%N 0 []
      else Raises (Exn "ValueError"
                     "string argument should contain only ASCII characters")
  | _ =>
      Raises (TypeError
        ("argument should be a bytes-like object or ASCII string, not '"
         +:+ type_name v +:+ "'"))
  end.

Definition text_of (b : bytes) : string :=
  String.string_of_list_ascii (ascii_of_byte <$> b).

Definition convert (i : nat) (md : MarkItDown) (p : string) (b : bytes)
    : outcome string :=
  if existsb (Byte.eqb x00) b
  then Raises (Exn "UnsupportedFormatException"
                 "Could not convert stream to Markdown.")
  else Returns (text_of b).

Definition str (v : json) : string :=
  match v with
  | JNull => "None"
  | JBool true => "True"
  | JBool false => "False"
  | JStr s => s
  | JInt z => pretty z
  | _ => "<" +:+ type_name v +:+ ">"
  end.

Definition env : environment := {|
  env_getenv_tmpdir := None;
  env_cwd := ["srv"];
  env_flask_legacy := false;
  env_uuid4 := "1b4e28ba-2fa1-4d3b-a3f5-ef19b5a7633b";
  env_str := str;
  env_b64decode := b64decode;
  env_makedirs := λ _, None;
  env_openai := λ _, None;
  env_markitdown := λ _, None;
  env_open := λ _ _, None;
  env_write := λ _ _, None;
  env_convert := convert;
  env_rmtree_fails := λ _, false
|}.

Definition fs : gmap path node :=
  {[ [] := Dir; ["tmp"] := Dir; ["etc"] := Dir ]}.

Definition file_entry (file_name file_content : string) : json :=
  JObj {[ "fileName" := JStr file_name; "fileContent" := JStr file_content ]}.

Definition request (data : list json) : request_body :=
  Parsed (JObj {[ "data" := JArr data ]}).

End Sample.

(** ** Vocabulary of the further properties *)

(** The string holds a separator. *)
Fixpoint has_sep (s : string) : bool :=
  match s with
  | EmptyString => false
  | String c s' => Ascii.eqb c "/"%char || has_sep s'
  end.


Definition is_convert_call (ev : event) : bool :=
  match ev with
  | CallConvert _ _ => true
  | _ => false
  end.

(** The first error, if any, among the constructor calls that build [md]. *)
Definition construction_error (env : environment) (md : MarkItDown)
    : option exn :=
  match md with
  | MarkItDown_plain => env_markitdown env md
  | MarkItDown_llm kw _ =>
      match env_openai env kw with
      | Some e => Some e
      | None => env_markitdown env md
      end
  end.

(** The calls made while building [md], up to the first error. *)
Definition construction_attempt (env : environment) (md : MarkItDown)
    : list event :=
  match md with
  | MarkItDown_plain => [CallMarkItDown md]
  | MarkItDown_llm kw _ =>
      match env_openai env kw with
      | Some _ => [CallOpenAI kw]
      | None => [CallOpenAI kw; CallMarkItDown md]
      end
  end.

(** The error, if any, of [open] and [f.write] for the [i]-th entry. *)
Definition save_error (env : environment) (i : nat) (p : string)
    : option exn :=
  match env_open env i p with
  | Some e => Some e
  | None => env_write env i p
  end.

(** [c.lower()] for an ASCII character; other characters are left alone
    (no character outside ASCII has a lower case among [t], [r], [u],
    [e]). *)
Definition lower_ascii (c : ascii) : ascii :=
  let n := N_of_ascii c in
  if (65 <=? n)%N && (n <=? 90)%N then ascii_of_N (n + 32) else c.

(** [s.lower()] *)
Fixpoint py_lower (s : string) : string :=
  match s with
  | EmptyString => EmptyString
  | String c s' => String (lower_ascii c) (py_lower s')
  end.

(** Line 15: [os.getenv("DEBUG", "false").lower() == "true"], from the
    variable [DEBUG] of the process environment, when set. *)
Definition DEBUG (getenv_DEBUG : option string) : bool :=
  String.eqb (py_lower (default "false" getenv_DEBUG)) "true".

(** The environment [env] with the variable [MARKITDOWN_TMPDIR] of the
    process environment set to [d]. *)
Definition set_tmpdir (d : string) (env : environment) : environment :=
  {| env_getenv_tmpdir := Some d;
     env_cwd := env_cwd env;
     env_flask_legacy := env_flask_legacy env;
     env_uuid4 := env_uuid4 env;
     env_str := env_str env;
     env_b64decode := env_b64decode env;
     env_makedirs := env_makedirs env;
     env_openai := env_openai env;
     env_markitdown := env_markitdown env;
     env_open := env_open env;
     env_write := env_write env;
     env_convert := env_convert env;
     env_rmtree_fails := env_rmtree_fails env |}.

(** Sample environments in which a collaborator fails: [os.makedirs],
    the [OpenAI] constructor or [open] raise the given exception. *)
Definition failing_env (makedirs_error openai_error open_error : option exn)
    : environment :=
  {| env_getenv_tmpdir := env_getenv_tmpdir Sample.env;
     env_cwd := env_cwd Sample.env;
     env_flask_legacy := env_flask_legacy Sample.env;
     env_uuid4 := env_uuid4 Sample.env;
     env_str := env_str Sample.env;
     env_b64decode := env_b64decode Sample.env;
     env_makedirs := λ _, makedirs_error;
     env_openai := λ _, openai_error;
     env_markitdown := env_markitdown Sample.env;
     env_open := λ _ _, open_error;
     env_write := env_write Sample.env;
     env_convert := env_convert Sample.env;
     env_rmtree_fails := env_rmtree_fails Sample.env |}.

(** * Proofs *)

(** ** Stepping through monadic code *)

Ltac run :=
  repeat (cbn;
    unfold mbind, M_bind, mret, M_ret, py_return, py_raise, call, update_fs,
      assign_working_dir, may_raise, of_outcome, py_get, os_path_join).
Ltac run_in H :=
  repeat (cbn in H;
    unfold mbind, M_bind, mret, M_ret, py_return, py_raise, call, update_fs,
      assign_working_dir, may_raise, of_outcome, py_get, os_path_join in H).


(** ** Engine construction *)

Lemma constructs_ret {A} (a : A) : constructs_only (mret a).
Proof.
  intros st f st' [= <- <-]. split_and!; try done.
  exists []. by rewrite app_nil_r.
Qed.

Lemma constructs_raise {A} e : constructs_only (@py_raise A e).
Proof.
  intros st f st' [= <- <-]. split_and!; try done.
  exists []. by rewrite app_nil_r.
Qed.

Lemma constructs_bind {A B} (m : M A) (k : A → M B) :
  constructs_only m → (∀ a, constructs_only (k a)) → constructs_only (m ≫= k).
Proof.
  intros Hm Hk st f st'. unfold mbind, M_bind.
  destruct (m st) as [fl st1] eqn:E.
  apply Hm in E as (Hfs & Hwd & (evs & Hlog & Hevs) & Hnr).
  destruct fl as [a|r|e].
  - intros E'. apply Hk in E' as (Hfs' & Hwd' & (evs' & Hlog' & Hevs') & Hnr').
    split_and!; try congruence.
    exists (evs ++ evs'). rewrite Hlog', Hlog, app_assoc. split; [done|].
    by apply Forall_app.
  - by destruct (Hnr r).
  - intros [= <- <-]. split_and!; eauto.
Qed.

Lemma constructs_call ev : is_construction ev = true → constructs_only (call ev).
Proof.
  intros Hev st f st' [= <- <-]. cbn. split_and!; try done.
  exists [ev]. split; [done|]. by constructor.
Qed.

Lemma constructs_may_raise o : constructs_only (may_raise o).
Proof. destruct o; [apply constructs_raise | apply constructs_ret]. Qed.

Lemma constructs_py_in key c : constructs_only (py_in key c).
Proof. destruct c; first [apply constructs_ret | apply constructs_raise]. Qed.

Lemma constructs_py_getitem c key : constructs_only (py_getitem c key).
Proof.
  destruct c; cbn; try apply constructs_raise.
  destruct (_ !! _); [apply constructs_ret | apply constructs_raise].
Qed.

Ltac constructs :=
  repeat first
    [ apply constructs_ret | apply constructs_raise | apply constructs_may_raise
    | apply constructs_py_in | apply constructs_py_getitem
    | apply constructs_call; reflexivity
    | apply constructs_bind; [|intros ?]
    | match goal with |- constructs_only (if ?b then _ else _) => destruct b end ].

Section Engine.
Context (env : environment).

Lemma make_engine_constructs cfg : constructs_only (make_engine env cfg).
Proof. unfold make_engine, all_keys_in. constructs. Qed.

Lemma config_optional_selects cfg :
  config_is_optional_object cfg → config_selects_engine cfg = true.
Proof. intros [-> | Hd]; [done|]. by destruct cfg. Qed.

Lemma make_engine_calls cfg st :
  config_selects_engine cfg = true →
  (∀ kw model, spec_llm_mode cfg = MarkItDown_llm kw model →
               env_openai env kw = None) →
  ∃ f, make_engine env cfg st
       = (f, State (st_fs st)
                   (st_log st ++ construction (spec_llm_mode cfg))
                   (st_working_dir st))
       ∧ f = match env_markitdown env (spec_llm_mode cfg) with
             | None => Next (spec_llm_mode cfg)
             | Some e => Raise e
             end.
Proof.
  intros Hsel Hopenai; unfold make_engine, all_keys_in.
  destruct cfg as [|b|z|f|s|l|m]; cbn [config_selects_engine] in Hsel.
  - run. destruct (env_markitdown env MarkItDown_plain); run; eauto.
  - apply negb_true_iff in Hsel. rewrite Hsel. run.
    destruct (env_markitdown env MarkItDown_plain); run; eauto.
  - apply negb_true_iff in Hsel. rewrite Hsel. run.
    destruct (env_markitdown env MarkItDown_plain); run; eauto.
  - apply negb_true_iff in Hsel. rewrite Hsel. run.
    destruct (env_markitdown env MarkItDown_plain); run; eauto.
  - destruct (truthy (JStr s)); cbn [spec_llm_mode construction];
      [|run; destruct (env_markitdown env MarkItDown_plain); run; eauto].
    unfold py_in, mbind, M_bind, mret, M_ret.
    destruct (bool_decide (is_Some (String.index 0 "openaiApiKey" s)));
      [destruct (bool_decide (is_Some (String.index 0 "llmModel" s)));
         [done|]|];
      run; destruct (env_markitdown env MarkItDown_plain); run; eauto.
  - destruct (truthy (JArr l)); cbn [spec_llm_mode construction];
      [|run; destruct (env_markitdown env MarkItDown_plain); run; eauto].
    unfold py_in, mbind, M_bind, mret, M_ret.
    destruct (existsb _ l); [destruct (existsb _ l); [done|]|];
      run; destruct (env_markitdown env MarkItDown_plain); run; eauto.
  - cbn [truthy spec_llm_mode] in *.
    destruct (m !! "openaiApiKey") as [key|] eqn:Hk;
      [destruct (m !! "llmModel") as [model|] eqn:Hm|].
    + assert (m ≠ ∅) as Hne by (intros ->; by rewrite lookup_empty in Hk).
      rewrite bool_decide_eq_false_2 by done.
      specialize (Hopenai _ _ eq_refl).
      destruct (m !! "openaiBaseUrl") as [url|] eqn:Hu;
        repeat (run; rewrite ?Hk, ?Hm, ?Hu, ?Hopenai);
        destruct (env_markitdown env _); run; rewrite <- app_assoc; eauto.
    + destruct (bool_decide (m = ∅)); run; rewrite ?Hk, ?Hm; run;
        destruct (env_markitdown env MarkItDown_plain); run; eauto.
    + destruct (bool_decide (m = ∅)); run; rewrite ?Hk; run;
        destruct (env_markitdown env MarkItDown_plain); run; eauto.
Qed.

End Engine.

Lemma truthy_str s : truthy (JStr s) = true ↔ s ≠ EmptyString.
Proof.
  cbn. destruct (String.eqb_spec s EmptyString); split; intros; done.
Qed.

(** ** What one turn of the loop touches *)

Section Touches.
Context (P : path → Prop).

Lemma touches_stop {A} (f : flow A) : touches_only P (λ st, (f, st)).
Proof.
  intros st f' st' [= <- <-]. split_and!; [done | | by left].
  exists []. by rewrite app_nil_r.
Qed.

Lemma touches_bind {A B} (m : M A) (k : A → M B) :
  touches_only P m → (∀ a, touches_only P (k a)) → touches_only P (m ≫= k).
Proof.
  intros Hm Hk st f st'. unfold mbind, M_bind.
  destruct (m st) as [fl st1] eqn:E.
  apply Hm in E as (Hwd & (evs & Hlog & Hevs) & Hfs).
  destruct fl as [a|r|e]; [|intros [= <- <-]; eauto..].
  intros E'. apply Hk in E' as (Hwd' & (evs' & Hlog' & Hevs') & Hfs').
  split_and!; [congruence | |].
  - exists (evs ++ evs'). rewrite Hlog', Hlog, app_assoc. split; [done|].
    by apply Forall_app.
  - intros p. destruct (Hfs' p) as [-> | ?]; [|by right].
    destruct (Hfs p) as [-> | ?]; [by left | by right].
Qed.

Lemma touches_pure_bind {A B} (f : flow A) (k : A → M B) :
  (∀ a, f = Next a → touches_only P (k a)) →
  touches_only P ((λ st, (f, st)) ≫= k).
Proof.
  intros Hk st f' st'. unfold mbind, M_bind.
  destruct f as [a|r|e]; [by apply Hk | apply touches_stop..].
Qed.

Lemma touches_call ev : is_file_call ev = true → touches_only P (call ev).
Proof.
  intros Hev st f st' [= <- <-]. cbn. split_and!; [done | | by left].
  exists [ev]. split; [done|]. by constructor.
Qed.

Lemma touches_may_raise o : touches_only P (may_raise o).
Proof. destruct o; apply touches_stop. Qed.

Lemma touches_insert q x : P q → touches_only P (update_fs (<[q := x]>)).
Proof.
  intros Hq st f st' [= <- <-]. cbn. split_and!; [done | |].
  - exists []. by rewrite app_nil_r.
  - intros p. destruct (decide (p = q)) as [-> | Hne].
    + right. by rewrite lookup_insert_eq.
    + left. by rewrite lookup_insert_ne.
Qed.

End Touches.

Ltac touches :=
  repeat first
    [ apply touches_stop | apply touches_may_raise
    | apply touches_call; reflexivity
    | apply touches_insert; solve [eauto]
    | apply touches_bind; [|intros ?]
    | match goal with
      | |- touches_only _ (match ?o with _ => _ end) => destruct o
      end ].

(** ** The loop over the entries *)

Section Loop.
Context (env : environment).
Implicit Types (md : MarkItDown) (st : state) (i : nat).

Lemma process_item_converts md i item name text st :
  entry_converts env md i item name text →
  ∃ file_bytes,
    process_item env md (working_dir env) i item st
    = (Next (result_entry (JStr name) text),
       State (<[locate env (path_join (working_dir env) name) :=
                  File file_bytes]>
                (<[locate env (path_join (working_dir env) name) :=
                     File []]> (st_fs st)))
             (st_log st
              ++ [CallOpen (path_join (working_dir env) name);
                  CallWrite (path_join (working_dir env) name) file_bytes;
                  CallConvert md (path_join (working_dir env) name)])
             (st_working_dir st)).
Proof.
  intros (m & content & b & -> & Hn & Hne & Hc & Ht & Hd & Ho & Hw & Hcv).
  exists b. unfold process_item. run. rewrite Hn, Hc. run.
  apply truthy_str in Hne. cbn in Hne. rewrite Hne, Ht. run.
  rewrite Hd. run. rewrite Ho. run. rewrite Hw. run. rewrite Hcv. run.
  by rewrite <- !app_assoc.
Qed.

Lemma process_item_touches md i item :
  touches_only (saved_at env item)
    (process_item env md (working_dir env) i item).
Proof.
  unfold process_item.
  destruct item as [| | | | | |m]; try apply touches_stop.
  apply (touches_pure_bind _ (Next (default JNull (m !! "fileName")))).
  intros fn [= <-].
  apply (touches_pure_bind _ (Next (default JNull (m !! "fileContent")))).
  intros fc [= <-].
  destruct (negb _ || negb _); [apply touches_stop|].
  destruct (env_b64decode env _) as [b|e];
    [apply (touches_pure_bind _ (Next b)); intros file_bytes [= <-]
    |by apply (touches_pure_bind _ (Return _))].
  destruct (m !! "fileName") as [[| | | |name| |]|] eqn:Hfn;
    try by apply (touches_pure_bind _ (Raise _)).
  apply (touches_pure_bind _ (Next (path_join (working_dir env) name))).
  intros file_path [= <-].
  assert (saved_at env (JObj m)
            (locate env (path_join (working_dir env) name)))
    by (by exists m, name).
  touches.
Qed.

(** What the outcome of one turn says about the entry. *)
Lemma process_item_flow md i item st f st' :
  process_item env md (working_dir env) i item st = (f, st') →
  match f with
  | Next r => ∃ name text, entry_converts env md i item name text
                           ∧ r = result_entry (JStr name) text
  | Return r => ∃ msg, r = error_response msg
  | Raise e => True
  end.
Proof.
  unfold process_item. intros H.
  destruct item as [| | | | | |m]; run_in H; try by injection H as <- _.
  destruct (m !! "fileName") as [fn|] eqn:Hfn;
    [|injection H as <- _; by eexists].
  destruct (m !! "fileContent") as [fc|] eqn:Hfc; cbn in H;
    [|rewrite orb_true_r in H; injection H as <- _; by eexists].
  destruct (truthy fn) eqn:Htn; [|injection H as <- _; by eexists].
  destruct (truthy fc) eqn:Htc; [|injection H as <- _; by eexists].
  cbn in H.
  destruct (env_b64decode env fc) as [file_bytes|e] eqn:Hd;
    [|injection H as <- _; by eexists].
  destruct fn as [| | | |name| |]; try by injection H as <- _.
  cbn in H.
  destruct (env_open env i _) eqn:Ho; [by injection H as <- _|].
  cbn in H.
  destruct (env_write env i _) eqn:Hw; [by injection H as <- _|].
  cbn in H.
  destruct (env_convert env i md _ file_bytes) as [text|e] eqn:Hcv;
    injection H as <- _; [|by eexists].
  exists name, text. split; [|done].
  exists m, fc, file_bytes. split_and!; try done. by apply truthy_str.
Qed.

Lemma process_item_inv md i item st f st' :
  process_item env md (working_dir env) i item st = (f, st') →
  st_working_dir st' = st_working_dir st
  ∧ (∃ evs, st_log st' = st_log st ++ evs
            ∧ Forall (λ ev, is_file_call ev = true) evs)
  ∧ (∀ p, st_fs st' !! p = st_fs st !! p
          ∨ (saved_at env item p ∧ is_Some (st_fs st' !! p)))
  ∧ match f with
    | Next r => ∃ name text, entry_converts env md i item name text
                             ∧ r = result_entry (JStr name) text
    | Return r => ∃ msg, r = error_response msg
    | Raise e => True
    end.
Proof.
  intros H. pose proof (process_item_touches md i item st f st' H)
    as (Hwd & Hlog & Hfs).
  split_and!; try done. by eapply process_item_flow.
Qed.

Lemma process_item_fails md i item msg st :
  entry_fails env md i item msg →
  ∃ st', process_item env md (working_dir env) i item st
         = (Return (error_response msg), st').
Proof.
  destruct 1 as [m Hm | m name content e Hn Htn Hc Htc Hd
                | m name content b e Hn Hne Hc Htc Hd Ho Hw Hcv];
    unfold process_item; run.
  - destruct Hm as [-> | ->]; cbn; rewrite ?orb_true_r; eauto.
  - rewrite Hn, Hc. cbn. rewrite Htn, Htc. cbn. rewrite Hd. eauto.
  - rewrite Hn, Hc. cbn. apply truthy_str in Hne. cbn in Hne.
    rewrite Hne, Htc. cbn. rewrite Hd. run. rewrite Ho. run.
    rewrite Hw. run. rewrite Hcv. eauto.
Qed.

Lemma process_item_not_dict md i item st :
  is_dict item = false →
  process_item env md (working_dir env) i item st
  = (Raise (AttributeError item "get"), st).
Proof. by destruct item. Qed.

Lemma process_items_app md i pre rest acc st :
  process_items env md (working_dir env) i (pre ++ rest) acc st
  = match process_items env md (working_dir env) i pre acc st with
    | (Next acc', st') =>
        process_items env md (working_dir env) (i + length pre) rest acc' st'
    | (Return r, st') => (Return r, st')
    | (Raise e, st') => (Raise e, st')
    end.
Proof.
  revert i acc st. induction pre as [|item pre IH]; intros i acc st; cbn.
  - unfold mret, M_ret. by rewrite Nat.add_0_r.
  - unfold mbind, M_bind.
    destruct (process_item env md (working_dir env) i item st)
      as [[r|r|e] st1]; [|done..].
    rewrite IH. by replace (S i + length pre) with (i + S (length pre)) by lia.
Qed.

Lemma process_items_converts md i data results acc st :
  all_convert env md i data results →
  ∃ st', process_items env md (working_dir env) i data acc st
         = (Next (acc ++ results), st').
Proof.
  intros H. revert acc st.
  induction H as [i | i item name text data results Hitem _ IH];
    intros acc st; cbn.
  - rewrite app_nil_r. by eexists.
  - unfold mbind, M_bind.
    destruct (process_item_converts md i item name text st Hitem) as [b ->].
    edestruct IH as [st' ->]. exists st'. by rewrite <- app_assoc.
Qed.

Lemma process_items_inv md i data acc st f st' :
  process_items env md (working_dir env) i data acc st = (f, st') →
  st_working_dir st' = st_working_dir st
  ∧ (∃ evs, st_log st' = st_log st ++ evs
            ∧ Forall (λ ev, is_file_call ev = true) evs)
  ∧ (∀ p, is_Some (st_fs st !! p) → is_Some (st_fs st' !! p))
  ∧ (∀ p, st_fs st' !! p = st_fs st !! p
          ∨ (∃ item, item ∈ data ∧ saved_at env item p))
  ∧ match f with
    | Next rs => ∃ results, rs = acc ++ results
                            ∧ all_convert env md i data results
    | Return r => ∃ msg, r = error_response msg
    | Raise e => True
    end.
Proof.
  revert i acc st. induction data as [|item data IH]; intros i acc st; cbn.
  - unfold mret, M_ret. intros [= <- <-]. split_and!; eauto.
    + exists []. by rewrite app_nil_r.
    + exists []. rewrite app_nil_r. split; [done|constructor].
  - unfold mbind, M_bind.
    destruct (process_item env md (working_dir env) i item st)
      as [fl st1] eqn:Hitem.
    apply process_item_inv in Hitem
      as (Hwd & (evs & Hlog & Hevs) & Hfs & Hfl).
    assert (Hmono : ∀ p, is_Some (st_fs st !! p) → is_Some (st_fs st1 !! p)).
    { intros p Hp. by destruct (Hfs p) as [-> | [_ ?]]. }
    assert (Hloc : ∀ p, st_fs st1 !! p = st_fs st !! p
                        ∨ (∃ item0, item0 ∈ item :: data ∧ saved_at env item0 p)).
    { intros p. destruct (Hfs p) as [-> | [? _]]; [by left|].
      right. exists item. split; [apply list_elem_of_here | done]. }
    destruct fl as [r|r|e].
    + intros Hrest. apply IH in Hrest
        as (Hwd' & (evs' & Hlog' & Hevs') & Hmono' & Hloc' & Hf).
      split_and!.
      * congruence.
      * exists (evs ++ evs'). rewrite Hlog', Hlog, app_assoc. split; [done|].
        by apply Forall_app.
      * eauto.
      * intros p. destruct (Hloc' p) as [-> | (item0 & ? & ?)]; [done|].
        right. exists item0. split; [by apply list_elem_of_further | done].
      * destruct f as [rs|r'|e]; [|done..].
        destruct Hf as (results & -> & Hall).
        destruct Hfl as (name & text & Hconv & ->).
        exists (result_entry (JStr name) text :: results). split.
        { by rewrite <- app_assoc. }
        by econstructor.
    + intros [= <- <-]. split_and!; eauto.
    + intros [= <- <-]. split_and!; eauto.
Qed.
End Loop.

(** ** The filesystem operations *)

Lemma mkdir_mono (q p : path) (fs : gmap path node) :
  is_Some (fs !! p) → is_Some (mkdir q fs !! p).
Proof.
  intros Hp. unfold mkdir. destruct (fs !! q) eqn:E; [done|].
  destruct (decide (q = p)) as [->|Hne].
  - by rewrite lookup_insert_eq.
  - by rewrite lookup_insert_ne.
Qed.

Lemma mkdir_creates (q : path) (fs : gmap path node) : is_Some (mkdir q fs !! q).
Proof.
  unfold mkdir. destruct (fs !! q) eqn:E; [by rewrite E|].
  by rewrite lookup_insert_eq.
Qed.

Lemma makedirs_fs_exists (p : path) (fs : gmap path node) :
  is_Some (makedirs_fs p fs !! p).
Proof.
  unfold makedirs_fs.
  assert (Hin : p ∈ ancestors p).
  { unfold ancestors. apply list_elem_of_fmap. exists (length p). split.
    - by rewrite firstn_all.
    - apply elem_of_seq. lia. }
  induction (ancestors p) as [|q l IH]; [by apply elem_of_nil in Hin|].
  cbn. apply elem_of_cons in Hin as [<- | Hin].
  - apply mkdir_creates.
  - by apply mkdir_mono, IH.
Qed.

Lemma rmtree_fs_lookup (fails : path → bool) (root p : path) (fs : gmap path node) :
  root `prefix_of` p → fails p = false → rmtree_fs fails root fs !! p = None.
Proof.
  intros Hp Hf. unfold rmtree_fs. apply map_lookup_filter_None. right.
  intros x _ [Hn | Hn]; cbn in *; [done | congruence].
Qed.

Lemma rmtree_fs_outside (fails : path → bool) (root p : path) (fs : gmap path node) :
  ¬ root `prefix_of` p → rmtree_fs fails root fs !! p = fs !! p.
Proof.
  intros Hp. unfold rmtree_fs. destruct (fs !! p) as [x|] eqn:E.
  - apply map_lookup_filter_Some. split; [done|]. by left.
  - apply map_lookup_filter_None. by left.
Qed.

(** ** The [try] block as a whole *)

Section Run.
Context (env : environment).

Lemma llm_config_of_insert (fields : gmap string json) v :
  llm_config_of (<["data" := v]> fields) = llm_config_of fields.
Proof. unfold llm_config_of. by rewrite lookup_insert_ne. Qed.

Lemma try_run (m : gmap string json) data fs :
  m !! "data" = Some (JArr data) → data ≠ [] →
  convert_files_try env (Parsed (JObj m)) (State fs [] None)
  = match env_makedirs env (working_dir env) with
    | Some e => (Raise e, State fs [CallMakedirs (working_dir env)]
                                (Some (working_dir env)))
    | None =>
        after_makedirs env (llm_config_of m) data
          (State (makedirs_fs (locate env (working_dir env)) fs)
                 [CallMakedirs (working_dir env)] (Some (working_dir env)))
    end.
Proof.
  intros Hdata Hne. unfold convert_files_try. run. rewrite Hdata. cbn.
  destruct data as [|item data]; [done|]. run. fold (working_dir env).
  destruct (env_makedirs env (working_dir env)); run; done.
Qed.

Lemma try_early req fs :
  (∀ (m : gmap string json) data,
     get_json env req = Returns (JObj m) → m !! "data" = Some (JArr data) →
     data = []) →
  ∃ f msg, convert_files_try env req (State fs [] None) = (f, State fs [] None)
           ∧ handle_exception f = error_response msg.
Proof.
  intros Hreq. unfold convert_files_try.
  destruct (get_json env req) as [payload|e] eqn:Hj; run; [|by eauto].
  destruct payload as [| | | | | |m]; run; try by eauto.
  destruct (m !! "data") as [data|] eqn:Hd; run; [|by eauto].
  destruct data as [| | | | |data|]; try by eauto.
  rewrite (Hreq m data); by eauto.
Qed.

Lemma after_makedirs_inv cfg data st f st' :
  after_makedirs env cfg data st = (f, st') →
  st_working_dir st' = st_working_dir st
  ∧ (∀ p, is_Some (st_fs st !! p) → is_Some (st_fs st' !! p))
  ∧ (∀ p, st_fs st' !! p = st_fs st !! p
          ∨ (∃ item, item ∈ data ∧ saved_at env item p))
  ∧ (∃ evs1 evs2, st_log st' = st_log st ++ evs1 ++ evs2
                  ∧ Forall (λ ev, is_construction ev = true) evs1
                  ∧ Forall (λ ev, is_file_call ev = true) evs2)
  ∧ match f with
    | Next _ => False
    | Return r =>
        (∃ msg, r = error_response msg)
        ∨ (∃ md results, r = jsonify (JArr results) 200
                         ∧ all_convert env md 0 data results)
    | Raise e => True
    end.
Proof.
  unfold after_makedirs, mbind, M_bind. fold (working_dir env).
  destruct (make_engine env cfg st) as [fl st1] eqn:E.
  apply make_engine_constructs in E as (Hfs & Hwd & (evs1 & Hlog & Hevs1) & Hnr).
  destruct fl as [md|r|e].
  - destruct (process_items env md (working_dir env) 0 data [] st1)
      as [fl st2] eqn:E2.
    apply process_items_inv in E2
      as (Hwd' & (evs2 & Hlog' & Hevs2) & Hmono & Hloc & Hfl).
    rewrite Hfs in Hmono, Hloc.
    assert (st_log st2 = st_log st ++ evs1 ++ evs2) as Hl
      by (by rewrite Hlog', Hlog, app_assoc).
    destruct fl as [results|r|e]; intros [= <- <-]; split_and!; eauto; try congruence.
    destruct Hfl as (results' & -> & Hall). right. eauto.
  - by destruct (Hnr r).
  - intros [= <- <-]. split_and!; try done.
    + intros p Hp. by rewrite Hfs.
    + intros p. left. by rewrite Hfs.
    + exists evs1, []. rewrite app_nil_r. split_and!; try done.
Qed.

End Run.

Section Cases.
Context (env : environment).

Lemma try_cases req fs f st :
  convert_files_try env req (State fs [] None) = (f, st) →
  (st = State fs [] None ∧ ∃ msg, handle_exception f = error_response msg)
  ∨ (∃ (m : gmap string json) data,
       get_json env req = Returns (JObj m)
       ∧ m !! "data" = Some (JArr data) ∧ data ≠ []
       ∧ ((∃ e, env_makedirs env (working_dir env) = Some e ∧ f = Raise e
                ∧ st = State fs [CallMakedirs (working_dir env)]
                             (Some (working_dir env)))
          ∨ (env_makedirs env (working_dir env) = None
             ∧ after_makedirs env (llm_config_of m) data
                 (State (makedirs_fs (locate env (working_dir env)) fs)
                        [CallMakedirs (working_dir env)]
                        (Some (working_dir env)))
               = (f, st)))).
Proof.
  intros Hrun.
  assert (Hearly :
    (∀ (m : gmap string json) data,
       get_json env req = Returns (JObj m) → m !! "data" = Some (JArr data) →
       data = []) →
    st = State fs [] None ∧ ∃ msg, handle_exception f = error_response msg).
  { intros H. destruct (try_early env req fs H) as (f' & msg & E & Hmsg).
    rewrite E in Hrun. injection Hrun as <- <-. eauto. }
  destruct (get_json env req) as [payload|e] eqn:Hj;
    [|left; apply Hearly; congruence].
  destruct payload as [| | | | | |m]; try (left; apply Hearly; congruence).
  destruct (m !! "data") as [d|] eqn:Hd;
    [|left; apply Hearly; intros ? ? [= <-] ?; congruence].
  destruct d as [| | | | |data|];
    try (left; apply Hearly; intros ? ? [= <-] ?; congruence).
  destruct data as [|item data];
    [left; apply Hearly; intros ? ? [= <-] ?; congruence|].
  right. exists m, (item :: data). split_and!; try done.
  assert (req = Parsed (JObj m)) as ->.
  { destruct req as [| |j]; cbn in Hj;
      [destruct (env_flask_legacy env); done | done | congruence]. }
  rewrite (try_run env m (item :: data) fs Hd) in Hrun by done.
  destruct (env_makedirs env (working_dir env)) as [e|]; [left|right; done].
  injection Hrun as <- <-. eauto.
Qed.

End Cases.

Lemma try_ignores_rmtree fails env req st :
  convert_files_try (set_rmtree_fails fails env) req st
  = convert_files_try env req st.
Proof. reflexivity. Qed.

Lemma final_state_after_makedirs env req fs wd :
  CallMakedirs wd ∈ st_log (convert_files env req fs).2 →
  env_makedirs env wd = None →
  ∃ st, (convert_files env req fs).2
        = State (rmtree_fs (env_rmtree_fails env) (locate env wd) (st_fs st))
                (st_log st ++ [CallRmtree wd]) (Some wd).
Proof.
  unfold convert_files.
  destruct (convert_files_try env req (State fs [] None)) as [f st] eqn:Hrun.
  cbn [fst snd]. intros Hin Hmk.
  apply try_cases in Hrun as [[-> _] | (m & data & Hj & Hd & Hne & Hrun)].
  { cbn in Hin. by apply elem_of_nil in Hin. }
  assert (st_working_dir st = Some (working_dir env)
          ∧ (∀ ev, ev ∈ st_log st → ev = CallMakedirs (working_dir env)
                                    ∨ is_construction ev = true
                                    ∨ is_file_call ev = true)
          ∧ (env_makedirs env (working_dir env) = None →
             is_Some (st_fs st !! locate env (working_dir env))))
    as (Hwd & Hlog & Hex).
  { destruct Hrun as [(e & Hf & -> & ->) | [Hok Hrun]]; cbn.
    - split_and!; [done | | congruence].
      intros ev ->%list_elem_of_singleton. by left.
    - apply after_makedirs_inv in Hrun
        as (Hwd & Hmono & _ & (evs1 & evs2 & Hlog & H1 & H2) & _); cbn in *.
      split_and!; [done | | intros _; apply Hmono, makedirs_fs_exists].
      intros ev. rewrite Hlog.
      intros [-> | [H|H]%elem_of_app]%elem_of_cons.
      + by left.
      + right; left. by eapply Forall_forall in H1.
      + right; right. by eapply Forall_forall in H2. }
  assert (wd = working_dir env) as ->.
  { unfold cleanup in Hin. rewrite Hwd in Hin.
    destruct (path_exists _ _); cbn in Hin;
      [apply elem_of_app in Hin as [Hin | Hin%list_elem_of_singleton]; [|done]|];
      by destruct (Hlog _ Hin) as [[= ->] | [? | ?]]. }
  specialize (Hex Hmk). exists st. unfold cleanup. rewrite Hwd.
  unfold path_exists. by rewrite bool_decide_eq_true_2.
Qed.


(** ** Entries that convert *)

Section Converts.
Context (env : environment).

Lemma entry_converts_functional md i item name text name' text' :
  entry_converts env md i item name text →
  entry_converts env md i item name' text' →
  name = name' ∧ text = text'.
Proof.
  intros (m & c & b & -> & Hn & _ & Hc & _ & Hd & _ & _ & Hcv)
         (m' & c' & b' & [= <-] & Hn' & _ & Hc' & _ & Hd' & _ & _ & Hcv').
  rewrite Hn in Hn'. injection Hn' as <-.
  rewrite Hc in Hc'. injection Hc' as <-.
  rewrite Hd in Hd'. injection Hd' as <-.
  rewrite Hcv in Hcv'. by injection Hcv' as <-.
Qed.

Lemma all_convert_length md i data results :
  all_convert env md i data results → length results = length data.
Proof. induction 1; cbn; congruence. Qed.

Lemma all_convert_lookup md i data results k item :
  all_convert env md i data results → data !! k = Some item →
  ∃ name text, entry_converts env md (i + k) item name text
               ∧ results !! k = Some (result_entry (JStr name) text).
Proof.
  intros H. revert k. induction H as [|i it name text data results Hit _ IH];
    intros k Hk; [done|].
  destruct k as [|k]; cbn in *.
  - injection Hk as <-. rewrite Nat.add_0_r. eauto.
  - replace (i + S k) with (S i + k) by lia. eauto.
Qed.

Lemma all_convert_intro md i data :
  (∀ k item, data !! k = Some item →
             ∃ name text, entry_converts env md (i + k) item name text) →
  ∃ results, all_convert env md i data results.
Proof.
  revert i. induction data as [|item data IH]; intros i H.
  - exists []. constructor.
  - destruct (H 0 item eq_refl) as (name & text & Hit).
    rewrite Nat.add_0_r in Hit.
    destruct (IH (S i)) as [results Hall].
    { intros k it Hk. replace (S i + k) with (i + S k) by lia. by apply H. }
    eexists. by econstructor.
Qed.

Lemma all_convert_take md i data results k :
  all_convert env md i data results →
  all_convert env md i (take k data) (take k results).
Proof.
  intros H. revert k. induction H; intros [|k]; cbn; econstructor; eauto.
Qed.

(** The response and the state before the [finally] block, for a request
    that reaches the loop. *)
Lemma try_reaches_loop (fields : gmap string json) data md fs :
  data ≠ [] → reaches_loop env fields md →
  convert_files_try env (conversion_request fields data) (State fs [] None)
  = (results ← process_items env md (working_dir env) 0 data [];
     py_return (jsonify (JArr results) 200))
      (State (makedirs_fs (locate env (working_dir env)) fs)
             ([CallMakedirs (working_dir env)] ++ construction md)
             (Some (working_dir env))).
Proof.
  intros Hne (Hmk & Hcfg & -> & Hcons). unfold conversion_request.
  rewrite (try_run env _ data fs) by (by rewrite ?lookup_insert_eq).
  rewrite Hmk, llm_config_of_insert. unfold after_makedirs at 1.
  unfold mbind at 1, M_bind at 1.
  destruct (make_engine_calls env (llm_config_of fields)
              (State (makedirs_fs (locate env (working_dir env)) fs)
                     [CallMakedirs (working_dir env)] (Some (working_dir env)))
              Hcfg) as (f & -> & ->).
  { intros kw model E. rewrite E in Hcons. apply Hcons. }
  assert (env_markitdown env (spec_llm_mode (llm_config_of fields)) = None)
    as -> by (destruct (spec_llm_mode _); [done | apply Hcons]).
  done.
Qed.

End Converts.


(** ** The shape of every response *)

Lemma error_of_error_response msg :
  error_of (error_response msg) = Some (JStr msg).
Proof. unfold error_of, error_response, jsonify, body. apply lookup_singleton_eq. Qed.

Lemma error_response_inj msg msg' :
  error_response msg = error_response msg' → msg = msg'.
Proof.
  intros H%(f_equal error_of). rewrite !error_of_error_response in H.
  congruence.
Qed.

Lemma response_cases env req fs :
  (∃ msg, (convert_files env req fs).1 = error_response msg)
  ∨ (∃ (m : gmap string json) data md results,
       get_json env req = Returns (JObj m)
       ∧ m !! "data" = Some (JArr data) ∧ data ≠ []
       ∧ (convert_files env req fs).1 = jsonify (JArr results) 200
       ∧ all_convert env md 0 data results).
Proof.
  unfold convert_files.
  destruct (convert_files_try env req (State fs [] None)) as [f st] eqn:Hrun.
  cbn [fst].
  apply try_cases in Hrun as [[_ Hmsg] | (m & data & Hj & Hd & Hne & Hrun)];
    [by left|].
  destruct Hrun as [(e & _ & -> & _) | [_ Hrun]]; [left; by eexists|].
  apply after_makedirs_inv in Hrun as (_ & _ & _ & _ & Hf).
  destruct f as [r|r|e]; [done | | left; by eexists].
  destruct Hf as [[msg ->] | (md & results & -> & Hall)]; [left; by eexists|].
  right. exists m, data, md, results. done.
Qed.

(** An entry that does not convert turns the whole response into an
    error. *)
Lemma not_converting_entry_is_error env (fields : gmap string json) data fs i item :
  data !! i = Some item →
  (∀ md name text, ¬ entry_converts env md i item name text) →
  ∃ msg, (convert_files env (conversion_request fields data) fs).1
         = error_response msg.
Proof.
  intros Hi Hno.
  destruct (response_cases env (conversion_request fields data) fs)
    as [H | (m & data' & md & results & Hj & Hd & _ & _ & Hall)]; [done|].
  injection Hj as <-. rewrite lookup_insert_eq in Hd. injection Hd as <-.
  destruct (all_convert_lookup env md 0 data results i item Hall Hi)
    as (name & text & Hit & _).
  by destruct (Hno md name text).
Qed.

Section Abort.
Context (env : environment).

(** A request whose first entries [pre] convert: the run up to the next
    entry does not depend on that entry nor on what follows it. *)
Lemma run_to_entry (fields : gmap string json) pre md results fs :
  reaches_loop env fields md → all_convert env md 0 pre results →
  ∃ st1, st_working_dir st1 = Some (working_dir env)
    ∧ ∀ item post,
        convert_files env (conversion_request fields (pre ++ item :: post)) fs
        = let '(f, st) :=
            (r ← process_item env md (working_dir env) (length pre) item;
             rs ← process_items env md (working_dir env) (S (length pre)) post
                    (results ++ [r]);
             py_return (jsonify (JArr rs) 200)) st1 in
          (handle_exception f, cleanup env st).
Proof.
  intros Hloop Hall.
  set (st0 := State (makedirs_fs (locate env (working_dir env)) fs)
                    ([CallMakedirs (working_dir env)] ++ construction md)
                    (Some (working_dir env))).
  destruct (process_items_converts env md 0 pre results [] st0 Hall) as [st1 E].
  exists st1. split.
  { by apply process_items_inv in E as [-> _]. }
  intros item post. unfold convert_files.
  rewrite (try_reaches_loop env fields _ md fs) by (done || by destruct pre).
  fold st0. unfold mbind, M_bind. rewrite process_items_app, E. cbn.
  unfold mbind, M_bind.
  by destruct (process_item env md (working_dir env) (length pre) item st1)
    as [[r|r|e] st2].
Qed.

(** The response when the entry after [pre] fails in one of the three
    ways. *)
Lemma failing_entry_response (fields : gmap string json) pre bad md results
    msg fs :
  reaches_loop env fields md → all_convert env md 0 pre results →
  entry_fails env md (length pre) bad msg →
  ∃ st', ∀ post,
    convert_files env (conversion_request fields (pre ++ bad :: post)) fs
    = (error_response msg, cleanup env st').
Proof.
  intros Hloop Hall Hbad.
  destruct (run_to_entry fields pre md results fs Hloop Hall) as (st1 & _ & Hrun).
  destruct (process_item_fails env md (length pre) bad msg st1 Hbad) as [st' E].
  exists st'. intros post. rewrite Hrun. unfold mbind, M_bind. by rewrite E.
Qed.

(** The response when the entry after [pre] is not an object. *)
Lemma non_object_entry_response (fields : gmap string json) pre item md
    results fs :
  reaches_loop env fields md → all_convert env md 0 pre results →
  is_dict item = false →
  ∃ st', ∀ post,
    convert_files env (conversion_request fields (pre ++ item :: post)) fs
    = (error_response (exn_str (AttributeError item "get")), cleanup env st').
Proof.
  intros Hloop Hall Hitem.
  destruct (run_to_entry fields pre md results fs Hloop Hall) as (st1 & _ & Hrun).
  exists st1. intros post. rewrite Hrun. unfold mbind, M_bind.
  by rewrite process_item_not_dict.
Qed.

Lemma list_split_at {A} (l : list A) i x :
  l !! i = Some x → l = take i l ++ x :: drop (S i) l ∧ length (take i l) = i.
Proof.
  intros H. split.
  - by rewrite take_drop_middle.
  - apply length_take_le. apply lookup_lt_Some in H. lia.
Qed.

End Abort.



(** ** Calls recorded in the log *)

Lemma filter_construction_file_calls evs :
  Forall (λ ev, is_file_call ev = true) evs →
  filter (λ ev, is_construction ev = true) evs = [].
Proof.
  induction 1 as [|ev evs Hev _ IH]; [done|].
  rewrite filter_cons, IH. by destruct ev.
Qed.


Lemma cleanup_log env st :
  st_log (cleanup env st) = st_log st
  ∨ ∃ wd, st_log (cleanup env st) = st_log st ++ [CallRmtree wd].
Proof.
  unfold cleanup. destruct (st_working_dir st); [|by left].
  destruct (path_exists _ _); [right; by eexists | by left].
Qed.

Lemma filter_construction_cleanup env st :
  filter (λ ev, is_construction ev = true) (st_log (cleanup env st))
  = filter (λ ev, is_construction ev = true) (st_log st).
Proof.
  destruct (cleanup_log env st) as [-> | [wd ->]]; [done|].
  by rewrite filter_app, app_nil_r.
Qed.


Lemma path_join_absolute a b : starts_with_sep b = true → path_join a b = b.
Proof. unfold path_join. by intros ->. Qed.


(** ** Files written by the loop *)

Section Writes.
Context (env : environment).

(** An entry whose content decodes and whose file is saved: whatever the
    engine then answers, the bytes are in place. *)
Lemma process_item_writes md i (m : gmap string json) name content file_bytes st :
  m !! "fileName" = Some (JStr name) → name ≠ EmptyString →
  m !! "fileContent" = Some content → truthy content = true →
  env_b64decode env content = Returns file_bytes →
  env_open env i (path_join (working_dir env) name) = None →
  env_write env i (path_join (working_dir env) name) = None →
  ∃ f st',
    process_item env md (working_dir env) i (JObj m) st = (f, st')
    ∧ st_fs st' !! locate env (path_join (working_dir env) name)
      = Some (File file_bytes)
    ∧ CallWrite (path_join (working_dir env) name) file_bytes ∈ st_log st'.
Proof.
  intros Hn Hne Hc Htc Hd Ho Hw. unfold process_item. run. rewrite Hn, Hc. cbn.
  apply truthy_str in Hne. cbn in Hne. rewrite Hne, Htc. cbn. rewrite Hd. run.
  rewrite Ho. run. rewrite Hw. run.
  destruct (env_convert env i md _ file_bytes); run.
  all: do 2 eexists; split_and!; [done | |]; cbn [st_fs st_log].
  all: first [by rewrite lookup_insert_eq | set_solver].

Qed.

End Writes.


(** * Sample runs *)

(** The example of the specification: one text file. *)
Example sample_hello :
  (convert_files Sample.env
     (Sample.request [Sample.file_entry "a.txt" "aGVsbG8="]) Sample.fs).1
  = jsonify (JArr [result_entry (JStr "a.txt") "hello"]) 200.
Proof. reflexivity. Qed.

(** The working directory is gone afterwards. *)
Example sample_hello_filesystem :
  st_fs (convert_files Sample.env
           (Sample.request [Sample.file_entry "a.txt" "aGVsbG8="]) Sample.fs).2
  = Sample.fs.
Proof. vm_compute. reflexivity. Qed.

Example sample_empty_data :
  (convert_files Sample.env (Sample.request []) Sample.fs).1
  = error_response "No valid 'data' array provided".
Proof. reflexivity. Qed.

(** A body that is a JSON array has no [get]. *)
Example sample_array_body :
  (convert_files Sample.env (Parsed (JArr [])) Sample.fs).1
  = error_response "'list' object has no attribute 'get'".
Proof. reflexivity. Qed.

(** An [llmConfig] that is a number cannot be searched for keys. *)
Example sample_number_config :
  (convert_files Sample.env
     (conversion_request {[ "llmConfig" := JInt 5 ]}
        [Sample.file_entry "a.txt" "aGVsbG8="]) Sample.fs).1
  = error_response "argument of type 'int' is not iterable".
Proof. reflexivity. Qed.

(** A [fileName] that is a number passes the emptiness test and fails in
    [os.path.join]. *)
Example sample_number_file_name :
  (convert_files Sample.env
     (Sample.request
        [JObj {[ "fileName" := JInt 5; "fileContent" := JStr "aGk=" ]}])
     Sample.fs).1
  = error_response
      "join() argument must be str, bytes, or os.PathLike object, not 'int'".
Proof. reflexivity. Qed.

(** The second entry fails to convert: its file is written, the first
    result is dropped. *)
Example sample_conversion_failure :
  (convert_files Sample.env
     (Sample.request [Sample.file_entry "a.txt" "aGVsbG8=";
                      Sample.file_entry "b.bin" "AAAA"]) Sample.fs).1
  = error_response
      "Conversion failed for file: b.bin. Error: Could not convert stream to Markdown.".
Proof. reflexivity. Qed.

(** An [llmConfig] that is [false] is no object, and the request reaches
    the loop all the same, with the plain engine. *)
Example sample_false_config :
  reaches_loop Sample.env {[ "llmConfig" := JBool false ]} MarkItDown_plain
  ∧ (convert_files Sample.env
       (conversion_request {[ "llmConfig" := JBool false ]}
          [Sample.file_entry "a.txt" "aGVsbG8="]) Sample.fs).1
    = Response
        (Json (JArr [JObj {[ "fileName" := JStr "a.txt";
                             "conversionResult" := JStr "hello" ]}]))
        200.
Proof. split; [repeat split | reflexivity]. Qed.

(** The decoder skips characters outside the alphabet. *)
Example sample_lenient_decoding :
  Sample.b64decode (JStr "aGk=@") = Returns ["h"; "i"]%byte.
Proof. reflexivity. Qed.

(** * The claims *)

(** C1: for a valid request with N entries that all decode and convert,
    the handler answers 200 with an array of exactly N results in the order
    of [data]; the i-th result is the object whose [fileName] is the i-th
    entry's [fileName] and whose [conversionResult] is the text the engine
    returned for it. *)
Theorem C1_all_files_converted env (fields : gmap string json) data md fs :
  data ≠ [] → reaches_loop env fields md →
  (∀ i item, data !! i = Some item →
             ∃ name text, entry_converts env md i item name text) →
  ∃ results,
    (convert_files env (conversion_request fields data) fs).1
    = Response (Json (JArr results)) 200
    ∧ length results = length data
    ∧ ∀ i item name text,
        data !! i = Some item → entry_converts env md i item name text →
        results !! i
        = Some (JObj {[ "fileName" := JStr name;
                        "conversionResult" := JStr text ]}).
Proof.
  intros Hne Hloop Hall.
  destruct (all_convert_intro env md 0 data Hall) as [results Hres].
  exists results. split_and!.
  - unfold convert_files. rewrite (try_reaches_loop env fields data md fs) by done.
    unfold mbind, M_bind.
    by edestruct (process_items_converts env md 0 data results []) as [st' ->].
  - by eapply all_convert_length.
  - intros i item name text Hi Hit.
    destruct (all_convert_lookup env md 0 data results i item Hres Hi)
      as (name' & text' & Hit' & ->).
    by destruct (entry_converts_functional env md i item name text name' text' Hit Hit')
      as [-> ->].
Qed.

Lemma C1_witness :
  ∃ results,
    (convert_files Sample.env
       (conversion_request ∅ [Sample.file_entry "a.txt" "aGVsbG8="])
       Sample.fs).1
    = Response (Json (JArr results)) 200
    ∧ length results = 1
    ∧ ∀ i item name text,
        [Sample.file_entry "a.txt" "aGVsbG8="] !! i = Some item →
        entry_converts Sample.env MarkItDown_plain i item name text →
        results !! i
        = Some (JObj {[ "fileName" := JStr name;
                        "conversionResult" := JStr text ]}).
Proof.
  apply (C1_all_files_converted Sample.env ∅
           [Sample.file_entry "a.txt" "aGVsbG8="] MarkItDown_plain Sample.fs).
  - discriminate.
  - repeat split.
  - intros [|i] item Hi; [|done]. injection Hi as <-.
    exists "a.txt", "hello". eexists _, (JStr "aGVsbG8="), _.
    split; [reflexivity|]. repeat split; try reflexivity. discriminate.
Defined.

(** C2: when an entry fails while the entries are processed in order
    (a field missing or empty, a decode failure, a conversion failure), the
    handler answers with status 500 and the object whose single member
    [error] is the message; the entries after it are not looked at, the
    results of the entries before it are dropped, and no response of the
    handler is a partial array: each is such an error object with status
    500, or an array with one result per entry and status 200. *)
Theorem C2_first_failure_aborts env (fields : gmap string json)
    pre bad post md results msg fs :
  reaches_loop env fields md →
  all_convert env md 0 pre results →
  entry_fails env md (length pre) bad msg →
  (convert_files env (conversion_request fields (pre ++ bad :: post)) fs).1
  = Response (Json (JObj {[ "error" := JStr msg ]})) 500
  ∧ convert_files env (conversion_request fields (pre ++ bad :: post)) fs
    = convert_files env (conversion_request fields (pre ++ [bad])) fs
  ∧ (∀ req' fs',
       (∃ msg', (convert_files env req' fs').1
                = Response (Json (JObj {[ "error" := JStr msg' ]})) 500)
       ∨ (∃ (m : gmap string json) data results',
            get_json env req' = Returns (JObj m)
            ∧ m !! "data" = Some (JArr data)
            ∧ (convert_files env req' fs').1
              = Response (Json (JArr results')) 200
            ∧ length results' = length data)).
Proof.
  intros Hloop Hall Hbad.
  destruct (failing_entry_response env fields pre bad md results msg fs
              Hloop Hall Hbad) as [st' Hrun].
  split_and!.
  - by rewrite Hrun.
  - by rewrite !Hrun.
  - intros req' fs'.
    destruct (response_cases env req' fs')
      as [H | (m & data & md' & results' & Hj & Hd & _ & Hr & Hall')];
      [by left | right].
    exists m, data, results'. split_and!; try done.
    by eapply all_convert_length.
Qed.

Lemma C2_witness :
  (convert_files Sample.env
     (conversion_request ∅
        ([Sample.file_entry "a.txt" "aGVsbG8="]
         ++ Sample.file_entry "b.bin" "abc"
            :: [Sample.file_entry "c.txt" "aGk="]))
     Sample.fs).1
  = Response
      (Json (JObj {[ "error" :=
                       JStr "Failed to decode base64 for b.bin: Incorrect padding" ]}))
      500.
Proof.
  refine (proj1 (C2_first_failure_aborts Sample.env ∅
                   [Sample.file_entry "a.txt" "aGVsbG8="]
                   (Sample.file_entry "b.bin" "abc")
                   [Sample.file_entry "c.txt" "aGk="]
                   MarkItDown_plain
                   [JObj {[ "fileName" := JStr "a.txt";
                            "conversionResult" := JStr "hello" ]}]
                   "Failed to decode base64 for b.bin: Incorrect padding"
                   Sample.fs _ _ _)).
  - repeat split.
  - econstructor; [|constructor].
    eexists _, (JStr "aGVsbG8="), _.
    split; [reflexivity|]. repeat split; try reflexivity. discriminate.
  - apply (fails_decode Sample.env MarkItDown_plain 1 _ (JStr "b.bin")
             (JStr "abc") (Sample.binascii_Error "Incorrect padding"));
      reflexivity.
Defined.

(** C3, as stated, fails: a body that parses to an array has no [data]
    field, and the answer is the text of the [AttributeError] that
    [payload.get] raises, not "No valid 'data' array provided". *)
Lemma C3_counterexample :
  (convert_files Sample.env (Parsed (JArr [])) Sample.fs).1
  = Response
      (Json (JObj {[ "error" := JStr "'list' object has no attribute 'get'" ]}))
      500
  ∧ error_of (convert_files Sample.env (Parsed (JArr [])) Sample.fs).1
    ≠ Some (JStr "No valid 'data' array provided").
Proof. split; [reflexivity|]. vm_compute. discriminate. Qed.

(** C3, amended: a body that parses to a JSON object without [data], with
    a [data] that is not a list, or with an empty [data] gets status 500
    and the object whose [error] is "No valid 'data' array provided"; a
    body that parses to another value gets status 500 too, with "No JSON
    payload provided" for [null] and with the text of the
    [AttributeError] of [payload.get] for an array, a string, a number or
    a boolean.  In each case nothing is created on the filesystem and no
    collaborator is called. *)
Theorem C3_no_valid_data env j fs :
  (∀ m : gmap string json,
     j = JObj m →
     m !! "data" = None
     ∨ (∃ v, m !! "data" = Some v ∧ ∀ l, v ≠ JArr l)
     ∨ m !! "data" = Some (JArr [])) →
  ∃ msg,
    convert_files env (Parsed j) fs
    = (Response (Json (JObj {[ "error" := JStr msg ]})) 500, State fs [] None)
    ∧ (is_dict j = true → msg = "No valid 'data' array provided")
    ∧ (j = JNull → msg = "No JSON payload provided")
    ∧ (is_dict j = false → j ≠ JNull →
       msg = "'" +:+ type_name j +:+ "' object has no attribute 'get'").
Proof.
  intros H. destruct j as [|b|z|f|s|l|m];
    try (eexists; split; [reflexivity|]; by split_and!).
  exists "No valid 'data' array provided". split; [|by split_and!].
  unfold convert_files, convert_files_try. run.
  destruct (H m eq_refl) as [-> | [(v & -> & Hv) | ->]]; run; try done.
  destruct v as [| | | | |l|]; try done. by destruct (Hv l).
Qed.

Lemma C3_witness :
  ∃ msg,
    convert_files Sample.env (Parsed (JObj {[ "data" := JArr [] ]})) Sample.fs
    = (Response (Json (JObj {[ "error" := JStr msg ]})) 500,
       State Sample.fs [] None)
    ∧ msg = "No valid 'data' array provided".
Proof.
  destruct (C3_no_valid_data Sample.env (JObj {[ "data" := JArr [] ]})
              Sample.fs) as (msg & Hrun & Hmsg & _).
  - intros m [= <-]. right; right. reflexivity.
  - exists msg. split; [exact Hrun | by apply Hmsg].
Defined.

(** C4: when the request had [os.makedirs] create the working directory,
    the last thing the handler does, on every way out, is to call
    [shutil.rmtree] on it: nothing at or below the directory is left except
    the entries whose removal failed, and such failures are silent and do
    not change the response. *)
Theorem C4_working_directory_cleanup env req fs wd :
  CallMakedirs wd ∈ st_log (convert_files env req fs).2 →
  env_makedirs env wd = None →
  last (st_log (convert_files env req fs).2) = Some (CallRmtree wd)
  ∧ (∀ p, locate env wd `prefix_of` p → env_rmtree_fails env p = false →
          st_fs (convert_files env req fs).2 !! p = None)
  ∧ (∀ fails, (convert_files (set_rmtree_fails fails env) req fs).1
              = (convert_files env req fs).1).
Proof.
  intros Hin Hmk.
  destruct (final_state_after_makedirs env req fs wd Hin Hmk) as [st ->]. cbn.
  split_and!.
  - by rewrite last_snoc.
  - intros p Hp Hf. by apply rmtree_fs_lookup.
  - intros fails. unfold convert_files. rewrite try_ignores_rmtree.
    by destruct (convert_files_try env req _).
Qed.

Lemma C4_witness :
  last (st_log (convert_files Sample.env
                  (Sample.request [Sample.file_entry "a.txt" "aGVsbG8="])
                  Sample.fs).2)
  = Some (CallRmtree "/tmp/1b4e28ba-2fa1-4d3b-a3f5-ef19b5a7633b").
Proof.
  refine (proj1 (C4_working_directory_cleanup Sample.env
                   (Sample.request [Sample.file_entry "a.txt" "aGVsbG8="])
                   Sample.fs "/tmp/1b4e28ba-2fa1-4d3b-a3f5-ef19b5a7633b" _ _)).
  - vm_compute. apply list_elem_of_here.
  - reflexivity.
Defined.




(** C6, as stated, fails: a body that does not parse makes [get_json]
    raise, and the message is that of the exception. *)
Lemma C6_counterexample :
  (convert_files Sample.env
     (Malformed "The browser (or proxy) sent a request that this server could not understand.")
     Sample.fs).1
  = Response
      (Json (JObj {[ "error" :=
                       JStr "400 Bad Request: The browser (or proxy) sent a request that this server could not understand." ]}))
      500
  ∧ error_of
      (convert_files Sample.env
         (Malformed "The browser (or proxy) sent a request that this server could not understand.")
         Sample.fs).1
    ≠ Some (JStr "No JSON payload provided").
Proof. split; [reflexivity|]. vm_compute. discriminate. Qed.

(** C6, amended: a request whose body is absent or does not parse gets
    status 500 and the object whose single member [error] is the message,
    and touches nothing; the message is "No JSON payload provided" when
    [get_json] answers [None] and the text of the exception when [get_json]
    raises. *)
Theorem C6_no_json_payload env req fs :
  req = NotJson ∨ (∃ description, req = Malformed description) →
  ∃ msg,
    convert_files env req fs
    = (Response (Json (JObj {[ "error" := JStr msg ]})) 500, State fs [] None)
    ∧ (get_json env req = Returns JNull → msg = "No JSON payload provided")
    ∧ (∀ e, get_json env req = Raises e → msg = exn_str e)
    ∧ msg = match req with
            | Malformed description => "400 Bad Request: " +:+ description
            | _ => if env_flask_legacy env then "No JSON payload provided"
                   else exn_str UnsupportedMediaType
            end.
Proof.
  intros [-> | [description ->]]; unfold convert_files, convert_files_try; cbn.
  - destruct (env_flask_legacy env); run; eexists; split_and!; try done.
    by intros e [= <-].
  - run. eexists; split_and!; try done. by intros e [= <-].
Qed.

Lemma C6_witness :
  ∃ msg,
    convert_files Sample.env (Malformed "Failed to decode JSON object") Sample.fs
    = (Response (Json (JObj {[ "error" := JStr msg ]})) 500,
       State Sample.fs [] None)
    ∧ msg = "400 Bad Request: Failed to decode JSON object".
Proof.
  destruct (C6_no_json_payload Sample.env
              (Malformed "Failed to decode JSON object") Sample.fs)
    as (msg & H & _ & _ & Hmsg).
  - right. eexists. reflexivity.
  - exists msg. split; [exact H | exact Hmsg].
Defined.

(** C7, as stated, fails twice.  The entry with the undecodable content is
    not reached when an earlier entry fails, and the message is then about
    the earlier entry.  And content that is not standard base64 need not
    fail to decode: [base64.b64decode] skips the characters outside the
    alphabet, so [aGk=@] decodes to [hi] and the answer is 200 with its
    result. *)
Lemma C7_counterexample :
  ([JObj {[ "fileName" := JStr "a.txt" ]}; Sample.file_entry "b.bin" "abc"] !! 1
   = Some (Sample.file_entry "b.bin" "abc")
   ∧ spec_standard_base64 "abc" = false
   ∧ env_b64decode Sample.env (JStr "abc")
     = Raises (Sample.binascii_Error "Incorrect padding")
   ∧ (convert_files Sample.env
        (Sample.request [JObj {[ "fileName" := JStr "a.txt" ]};
                         Sample.file_entry "b.bin" "abc"])
        Sample.fs).1
     = Response
         (Json (JObj {[ "error" := JStr "Missing fileName or fileContent" ]}))
         500)
  ∧ (spec_standard_base64 "aGk=@" = false
     ∧ (convert_files Sample.env
          (Sample.request [Sample.file_entry "b.bin" "aGk=@"]) Sample.fs).1
       = Response
           (Json (JArr [JObj {[ "fileName" := JStr "b.bin";
                                "conversionResult" := JStr "hi" ]}]))
           200).
Proof. split_and!; reflexivity. Qed.

(** C7, amended: when [base64.b64decode] raises on the content of some
    entry, the handler answers with status 500, an error object and no
    result; when the request reaches the loop (the working directory is
    created and the engine is built) and the entry is the first to fail,
    that is when the entries before it convert and its own [fileName] and
    [fileContent] are not empty, the message names that entry and the
    decode error. *)
Theorem C7_undecodable_content env (fields : gmap string json) data fs
    i (m : gmap string json) content e :
  data !! i = Some (JObj m) →
  m !! "fileContent" = Some content →
  env_b64decode env content = Raises e →
  (∃ msg, (convert_files env (conversion_request fields data) fs).1
          = Response (Json (JObj {[ "error" := JStr msg ]})) 500)
  ∧ (∀ md results name,
       reaches_loop env fields md →
       all_convert env md 0 (take i data) results →
       m !! "fileName" = Some name → truthy name = true →
       truthy content = true →
       (convert_files env (conversion_request fields data) fs).1
       = Response
           (Json (JObj {[ "error" :=
                            JStr ("Failed to decode base64 for "
                                  +:+ py_str env name
                                  +:+ ": " +:+ exn_str e) ]}))
           500).
Proof.
  intros Hi Hc Hd. split.
  - eapply not_converting_entry_is_error; [done|].
    intros md name text (m' & c' & b & [= <-] & _ & _ & Hc' & _ & Hd' & _).
    congruence.
  - intros md results name Hloop Hall Hn Htn Htc.
    destruct (list_split_at data i _ Hi) as [Hsplit Hlen].
    destruct (failing_entry_response env fields (take i data) (JObj m) md
                results ("Failed to decode base64 for " +:+ py_str env name
                         +:+ ": " +:+ exn_str e) fs Hloop Hall) as [st' Hrun].
    { rewrite Hlen. by eapply fails_decode. }
    rewrite Hsplit at 1. by rewrite Hrun.
Qed.

Lemma C7_witness :
  (∃ msg,
     (convert_files Sample.env
        (conversion_request ∅
           [Sample.file_entry "a.txt" "aGVsbG8=";
            Sample.file_entry "b.bin" "abc"]) Sample.fs).1
     = Response (Json (JObj {[ "error" := JStr msg ]})) 500)
  ∧ (convert_files Sample.env
       (conversion_request ∅
          [Sample.file_entry "a.txt" "aGVsbG8=";
           Sample.file_entry "b.bin" "abc"]) Sample.fs).1
    = Response
        (Json (JObj {[ "error" :=
                         JStr "Failed to decode base64 for b.bin: Incorrect padding" ]}))
        500.
Proof.
  destruct (C7_undecodable_content Sample.env ∅
              [Sample.file_entry "a.txt" "aGVsbG8=";
               Sample.file_entry "b.bin" "abc"] Sample.fs 1
              {[ "fileName" := JStr "b.bin"; "fileContent" := JStr "abc" ]}
              (JStr "abc") (Sample.binascii_Error "Incorrect padding"))
    as [Herr Hmsg]; try reflexivity.
  split; [exact Herr|].
  apply (Hmsg MarkItDown_plain
           [JObj {[ "fileName" := JStr "a.txt";
                    "conversionResult" := JStr "hello" ]}]
           (JStr "b.bin")); try reflexivity.
  - repeat split.
  - econstructor; [|constructor].
    eexists _, (JStr "aGVsbG8="), _.
    split; [reflexivity|]. repeat split; try reflexivity. discriminate.
Defined.

(** C9, as stated, fails: an element that is not an object is not reached
    when an earlier element fails, and the response is then the message of
    the per-file validation. *)
Lemma C9_counterexample :
  [JObj ∅; JStr "x"] !! 1 = Some (JStr "x")
  ∧ is_dict (JStr "x") = false
  ∧ (convert_files Sample.env (Sample.request [JObj ∅; JStr "x"]) Sample.fs).1
    = Response
        (Json (JObj {[ "error" := JStr "Missing fileName or fileContent" ]}))
        500.
Proof. split_and!; reflexivity. Qed.

(** C9, amended: when some element of [data] is not an object, the handler
    answers with status 500 and an error object; when the request reaches
    the loop (the working directory is created and the engine is built)
    and the elements before it convert, the message is that of the
    [AttributeError] caught by the catch-all, which is not "Missing
    fileName or fileContent". *)
Theorem C9_non_object_entry env (fields : gmap string json) data fs i item :
  data !! i = Some item → is_dict item = false →
  (∃ msg, (convert_files env (conversion_request fields data) fs).1
          = Response (Json (JObj {[ "error" := JStr msg ]})) 500)
  ∧ (∀ md results,
       reaches_loop env fields md →
       all_convert env md 0 (take i data) results →
       (convert_files env (conversion_request fields data) fs).1
       = Response
           (Json (JObj {[ "error" :=
                            JStr ("'" +:+ type_name item
                                  +:+ "' object has no attribute 'get'") ]}))
           500
       ∧ "'" +:+ type_name item +:+ "' object has no attribute 'get'"
         ≠ "Missing fileName or fileContent").
Proof.
  intros Hi Hitem. split.
  - eapply not_converting_entry_is_error; [done|].
    intros md name text (m' & c' & b & -> & _). done.
  - intros md results Hloop Hall.
    destruct (list_split_at data i _ Hi) as [Hsplit Hlen].
    destruct (non_object_entry_response env fields (take i data) item md
                results fs Hloop Hall Hitem) as [st' Hrun].
    split; [|by destruct item].
    rewrite Hsplit at 1. by rewrite Hrun.
Qed.

Lemma C9_witness :
  (∃ msg,
     (convert_files Sample.env
        (conversion_request ∅ [Sample.file_entry "a.txt" "aGVsbG8="; JStr "x"])
        Sample.fs).1
     = Response (Json (JObj {[ "error" := JStr msg ]})) 500)
  ∧ (convert_files Sample.env
       (conversion_request ∅ [Sample.file_entry "a.txt" "aGVsbG8="; JStr "x"])
       Sample.fs).1
    = Response
        (Json (JObj {[ "error" :=
                         JStr "'str' object has no attribute 'get'" ]}))
        500.
Proof.
  destruct (C9_non_object_entry Sample.env ∅
              [Sample.file_entry "a.txt" "aGVsbG8="; JStr "x"] Sample.fs 1
              (JStr "x")) as [Herr Hmsg]; try reflexivity.
  split; [exact Herr|].
  apply (Hmsg MarkItDown_plain
           [JObj {[ "fileName" := JStr "a.txt";
                    "conversionResult" := JStr "hello" ]}]).
  - repeat split.
  - econstructor; [|constructor].
    eexists _, (JStr "aGVsbG8="), _.
    split; [reflexivity|]. repeat split; try reflexivity. discriminate.
Defined.

(** C8: [GET /] answers 200 with the body "ok", whatever the environment,
    the request and the filesystem, and changes nothing. *)
Theorem C8_root_ok env req fs :
  dispatch env "GET" "/" req fs
  = Some (Response (Text "ok") 200, State fs [] None).
Proof. reflexivity. Qed.

(** C10: an entry whose [fileName] is an absolute path outside the working
    directory has its decoded bytes written to that very path, since
    [os.path.join] drops the working directory; the cleanup removes the
    working directory only, so the file is still there, with those bytes,
    when the handler returns (unless a later entry names the same file). *)
Theorem C10_absolute_file_name_escapes env (fields : gmap string json)
    pre (m : gmap string json) post md results name content file_bytes fs :
  reaches_loop env fields md →
  all_convert env md 0 pre results →
  m !! "fileName" = Some (JStr name) → starts_with_sep name = true →
  m !! "fileContent" = Some content → truthy content = true →
  env_b64decode env content = Returns file_bytes →
  env_open env (length pre) name = None →
  env_write env (length pre) name = None →
  ¬ locate env (working_dir env) `prefix_of` locate env name →
  (∀ (m' : gmap string json) name',
     JObj m' ∈ post → m' !! "fileName" = Some (JStr name') →
     locate env (path_join (working_dir env) name') ≠ locate env name) →
  let st := (convert_files env
               (conversion_request fields (pre ++ JObj m :: post)) fs).2 in
  path_join (working_dir env) name = name
  ∧ CallWrite name file_bytes ∈ st_log st
  ∧ st_fs st !! locate env name = Some (File file_bytes).
Proof.
  intros Hloop Hall Hn Habs Hc Htc Hd Ho Hw Hout Hpost st.
  pose proof (path_join_absolute (working_dir env) name Habs) as Hjoin.
  split; [done|].
  destruct (run_to_entry env fields pre md results fs Hloop Hall)
    as (st1 & Hwd1 & Hrun).
  assert (name ≠ EmptyString) as Hne by (by destruct name).
  destruct (process_item_writes env md (length pre) m name content file_bytes st1)
    as (f & st2 & E & Hfs2 & Hlog2); rewrite ?Hjoin; try done.
  rewrite Hjoin in Hfs2, Hlog2.
  pose proof E as (Hwd2 & _)%process_item_inv.
  assert (∃ st3, st = cleanup env st3
                    ∧ st_working_dir st3 = Some (working_dir env)
                    ∧ CallWrite name file_bytes ∈ st_log st3
                    ∧ st_fs st3 !! locate env name = Some (File file_bytes))
    as (st3 & -> & Hwd3 & Hlog3 & Hfs3).
  { unfold st. rewrite Hrun. unfold mbind, M_bind. rewrite E.
    destruct f as [r|r|e].
    - destruct (process_items env md (working_dir env) (S (length pre)) post
                  (results ++ [r]) st2) as [fl st3] eqn:E3.
      apply process_items_inv in E3 as (Hwd3 & (evs & Hlog3 & _) & _ & Hloc & _).
      exists st3. split_and!.
      + by destruct fl.
      + congruence.
      + rewrite Hlog3. set_solver.
      + destruct (Hloc (locate env name))
          as [-> | (item & Hin & m' & name' & -> & Hn' & Heq)]; [done|].
        by destruct (Hpost m' name' Hin Hn').
    - exists st2. split_and!; try done. congruence.
    - exists st2. split_and!; try done. congruence. }
  unfold cleanup. rewrite Hwd3.
  destruct (path_exists _ _); cbn; [|done].
  split; [set_solver|]. by rewrite rmtree_fs_outside.
Qed.

Lemma C10_witness :
  st_fs (convert_files Sample.env
           (conversion_request ∅
              ([] ++ Sample.file_entry "/etc/motd" "aGVsbG8="
                  :: [Sample.file_entry "b.txt" "aGk="]))
           Sample.fs).2
  !! ["etc"; "motd"]
  = Some (File ["h"; "e"; "l"; "l"; "o"]%byte).
Proof.
  refine (proj2 (proj2 (C10_absolute_file_name_escapes Sample.env ∅ []
                   {[ "fileName" := JStr "/etc/motd";
                      "fileContent" := JStr "aGVsbG8=" ]}
                   [Sample.file_entry "b.txt" "aGk="] MarkItDown_plain []
                   "/etc/motd" (JStr "aGVsbG8=") _ Sample.fs
                   _ _ _ _ _ _ _ _ _ _ _))); try reflexivity.
  - repeat split.
  - constructor.
  - vm_compute. intros [k Hk]. discriminate.
  - intros m' name' Hin%list_elem_of_singleton Hn'. injection Hin as ->.
    vm_compute in Hn'. injection Hn' as <-. vm_compute. discriminate.
Defined.

(** * Further properties *)

(** ** Path strings *)

Lemma string_app_cons c (a b : string) :
  String c a +:+ b = String c (a +:+ b).
Proof. reflexivity. Qed.

Lemma string_app_assoc (a b c : string) : (a +:+ b) +:+ c = a +:+ (b +:+ c).
Proof.
  induction a as [|x a IH]; [done|]. by rewrite !string_app_cons, IH.
Qed.

Lemma string_app_empty_r (a : string) : a +:+ EmptyString = a.
Proof. induction a as [|x a IH]; [done|]. by rewrite string_app_cons, IH. Qed.

(** A separator closes the component being read. *)
Lemma split_sep_app_sep a b acc :
  split_sep (a +:+ String "/" b) acc
  = split_sep a acc ++ split_sep b EmptyString.
Proof.
  revert acc. induction a as [|c a IH]; intros acc; [done|].
  rewrite string_app_cons. cbn [split_sep].
  destruct (Ascii.eqb c "/"); cbn [app]; by rewrite IH.
Qed.

Lemma split_sep_plain s acc :
  has_sep s = false → split_sep s acc = [acc +:+ s].
Proof.
  revert acc. induction s as [|c s IH]; intros acc; cbn [has_sep split_sep].
  - by rewrite string_app_empty_r.
  - destruct (Ascii.eqb c "/"); [done|]. cbn [orb]. intros Hs.
    rewrite IH by done. by rewrite string_app_assoc.
Qed.

Lemma ends_with_sep_inv a :
  ends_with_sep a = true → ∃ a', a = a' +:+ "/".
Proof.
  induction a as [|c a IH]; [done|]. destruct a as [|c' a].
  - cbn. intros ->%Ascii.eqb_eq. by exists EmptyString.
  - intros [a' ->]%IH. by exists (String c a').
Qed.

Lemma starts_with_sep_app a b :
  a ≠ EmptyString → starts_with_sep (a +:+ b) = starts_with_sep a.
Proof. by destruct a. Qed.

(** Joining a relative path to a directory and resolving the result is
    walking the relative path from the directory. *)
Lemma resolve_path_join cwd a b :
  starts_with_sep b = false →
  resolve cwd (path_join a b)
  = fold_left enter (split_sep b EmptyString) (resolve cwd a).
Proof.
  intros Hb. unfold path_join. rewrite Hb.
  destruct a as [|c a].
  { change (resolve cwd b
            = fold_left enter (split_sep b EmptyString) (resolve cwd EmptyString)).
    unfold resolve. by rewrite Hb. }
  change (String.eqb (String c a) EmptyString) with false. cbn [orb].
  destruct (ends_with_sep (String c a)) eqn:Hend.
  - apply ends_with_sep_inv in Hend as [a' Ha]. rewrite Ha.
    rewrite string_app_assoc. change ("/" +:+ b) with (String "/" b).
    unfold resolve.
    assert (starts_with_sep (a' +:+ String "/" b)
            = starts_with_sep (a' +:+ "/")) as -> by (by destruct a').
    rewrite (split_sep_app_sep a' b), (split_sep_app_sep a' EmptyString).
    by rewrite !fold_left_app.
  - unfold resolve. rewrite starts_with_sep_app by done.
    change ("/" +:+ b) with (String "/" b).
    by rewrite split_sep_app_sep, fold_left_app.
Qed.

Lemma enter_plain cur name :
  name ≠ EmptyString → name ≠ "." → name ≠ ".." → enter cur name = cur ++ [name].
Proof.
  intros H1 H2 H3. unfold enter.
  by rewrite !(proj2 (String.eqb_neq _ _)).
Qed.

Lemma resolve_dir_sep cwd d :
  d ≠ EmptyString → resolve cwd (d +:+ "/") = resolve cwd d.
Proof.
  intros Hd. unfold resolve. rewrite starts_with_sep_app by done.
  by rewrite (split_sep_app_sep d EmptyString), fold_left_app.
Qed.

(** ** Where the entries are saved *)

Lemma has_sep_starts s : has_sep s = false → starts_with_sep s = false.
Proof. destruct s as [|c s]; [done|]. cbn. by destruct (Ascii.eqb c "/"). Qed.








(** ** Engine construction, whatever the type of [llmConfig] *)

Section EngineCases.
Context (env : environment).

(** With an [llmConfig] that selects an engine, the constructors are
    called in the order of [construction], up to the first that raises. *)
Lemma make_engine_attempt cfg st :
  config_selects_engine cfg = true →
  make_engine env cfg st
  = (match construction_error env (spec_llm_mode cfg) with
     | Some e => Raise e
     | None => Next (spec_llm_mode cfg)
     end,
     State (st_fs st)
           (st_log st ++ construction_attempt env (spec_llm_mode cfg))
           (st_working_dir st)).
Proof.
  intros Hsel; unfold make_engine, all_keys_in.
  destruct cfg as [|b|z|f|s|l|m]; cbn [config_selects_engine] in Hsel.
  - run. by destruct (env_markitdown env MarkItDown_plain).
  - apply negb_true_iff in Hsel. rewrite Hsel. run.
    by destruct (env_markitdown env MarkItDown_plain).
  - apply negb_true_iff in Hsel. rewrite Hsel. run.
    by destruct (env_markitdown env MarkItDown_plain).
  - apply negb_true_iff in Hsel. rewrite Hsel. run.
    by destruct (env_markitdown env MarkItDown_plain).
  - destruct (truthy (JStr s));
      cbn [spec_llm_mode construction_error construction_attempt];
      [|run; by destruct (env_markitdown env MarkItDown_plain)].
    unfold py_in, mbind, M_bind, mret, M_ret.
    destruct (bool_decide (is_Some (String.index 0 "openaiApiKey" s)));
      [destruct (bool_decide (is_Some (String.index 0 "llmModel" s)));
         [done|]|];
      run; by destruct (env_markitdown env MarkItDown_plain).
  - destruct (truthy (JArr l));
      cbn [spec_llm_mode construction_error construction_attempt];
      [|run; by destruct (env_markitdown env MarkItDown_plain)].
    unfold py_in, mbind, M_bind, mret, M_ret.
    destruct (existsb _ l); [destruct (existsb _ l); [done|]|];
      run; by destruct (env_markitdown env MarkItDown_plain).
  - cbn [truthy spec_llm_mode construction_error construction_attempt].
    destruct (m !! "openaiApiKey") as [key|] eqn:Hk;
      [destruct (m !! "llmModel") as [model|] eqn:Hm|].
    + assert (m ≠ ∅) as Hne by (intros ->; by rewrite lookup_empty in Hk).
      rewrite bool_decide_eq_false_2 by done.
      cbn [construction_error construction_attempt].
      destruct (m !! "openaiBaseUrl") as [url|] eqn:Hu;
        repeat (run; rewrite ?Hk, ?Hm, ?Hu);
        destruct (env_openai env _); run; [done| |done|];
        destruct (env_markitdown env _); run; by rewrite <- app_assoc.
    + destruct (bool_decide (m = ∅)); run; rewrite ?Hk, ?Hm; run;
        by destruct (env_markitdown env MarkItDown_plain).
    + destruct (bool_decide (m = ∅)); run; rewrite ?Hk; run;
        by destruct (env_markitdown env MarkItDown_plain).
Qed.

(** The plain construction, as a step. *)
Lemma plain_engine_step st :
  (call (CallMarkItDown MarkItDown_plain);;
   may_raise (env_markitdown env MarkItDown_plain);;
   mret MarkItDown_plain) st
  = (match env_markitdown env MarkItDown_plain with
     | Some e => Raise e
     | None => Next MarkItDown_plain
     end,
     State (st_fs st) (st_log st ++ [CallMarkItDown MarkItDown_plain])
           (st_working_dir st)).
Proof. run. by destruct (env_markitdown env MarkItDown_plain). Qed.

Lemma py_in_pure key c st :
  ∃ f, py_in key c st = (f, st) ∧ ∀ r, f ≠ Return r.
Proof. destruct c; by eexists. Qed.

Lemma all_keys_in_pure cfg st :
  ∃ f, all_keys_in cfg st = (f, st) ∧ ∀ r, f ≠ Return r.
Proof.
  unfold all_keys_in, mbind, M_bind.
  destruct (py_in_pure "openaiApiKey" cfg st) as (f & -> & Hf).
  destruct f as [[]|r|e]; [apply py_in_pure | by eexists | by destruct (Hf r)
                          | by eexists].
Qed.

Lemma py_getitem_non_object c key st :
  is_dict c = false → ∃ e, py_getitem c key st = (Raise e, st).
Proof. destruct c; try done; by eexists. Qed.

(** With an [llmConfig] that is not an object, either the plain engine is
    built or an exception is raised before any constructor is called. *)
Lemma make_engine_non_object cfg st :
  is_dict cfg = false →
  make_engine env cfg st
  = (match env_markitdown env MarkItDown_plain with
     | Some e => Raise e
     | None => Next MarkItDown_plain
     end,
     State (st_fs st) (st_log st ++ [CallMarkItDown MarkItDown_plain])
           (st_working_dir st))
  ∨ (truthy cfg = true ∧ ∃ e, make_engine env cfg st = (Raise e, st)).
Proof.
  intros Hd. remember (make_engine env cfg st) as res eqn:E.
  unfold make_engine in E.
  destruct (truthy cfg) eqn:Ht;
    [|left; by rewrite E, <- plain_engine_step].
  unfold mbind at 1, M_bind at 1 in E.
  destruct (all_keys_in_pure cfg st) as (f & Hk & Hf). rewrite Hk in E.
  destruct f as [[]|r|e]; cbv beta iota in E.
  - right. split; [done|]. unfold mbind at 1, M_bind at 1 in E.
    destruct (py_getitem_non_object cfg "openaiApiKey" st Hd) as [e He].
    rewrite He in E. by eexists.
  - left. by rewrite E, <- plain_engine_step.
  - by destruct (Hf r).
  - right. split; [done|]. by eexists.
Qed.


End EngineCases.

(** ** The run after [os.makedirs] *)

Section Decompose.
Context (env : environment).

(** The handler, once the working directory is created, in terms of its
    two phases. *)
Lemma run_decompose (m : gmap string json) data fs :
  m !! "data" = Some (JArr data) → data ≠ [] →
  env_makedirs env (working_dir env) = None →
  convert_files env (Parsed (JObj m)) fs
  = match make_engine env (llm_config_of m)
            (State (makedirs_fs (locate env (working_dir env)) fs)
                   [CallMakedirs (working_dir env)]
                   (Some (working_dir env))) with
    | (Next md, st1) =>
        let '(f, st) :=
          process_items env md (working_dir env) 0 data [] st1 in
        (match f with
         | Next rs => jsonify (JArr rs) 200
         | Return r => r
         | Raise e => error_response (exn_str e)
         end, cleanup env st)
    | (Return r, st1) => (r, cleanup env st1)
    | (Raise e, st1) => (error_response (exn_str e), cleanup env st1)
    end.
Proof.
  intros Hd Hne Hmk. unfold convert_files.
  rewrite (try_run env m data fs Hd Hne), Hmk.
  unfold after_makedirs, mbind, M_bind. fold (working_dir env).
  destruct (make_engine env _ _) as [[md|r|e] st1]; [|done..].
  by destruct (process_items env md _ 0 data [] st1) as [[rs|r|e] st2].
Qed.

(** The [finally] block after a successful [os.makedirs]: the directory
    is still there and is removed. *)
Lemma cleanup_removes st :
  st_working_dir st = Some (working_dir env) →
  is_Some (st_fs st !! locate env (working_dir env)) →
  cleanup env st
  = State (rmtree_fs (env_rmtree_fails env) (locate env (working_dir env))
             (st_fs st))
          (st_log st ++ [CallRmtree (working_dir env)])
          (Some (working_dir env)).
Proof.
  intros Hwd Hex. unfold cleanup, path_exists. rewrite Hwd.
  by rewrite bool_decide_eq_true_2.
Qed.

End Decompose.

Lemma status_error_response msg : status (error_response msg) = 500%Z.
Proof. reflexivity. Qed.


(** ** Conversions recorded in the log *)

Lemma filter_convert_constructions evs :
  Forall (λ ev, is_construction ev = true) evs →
  filter (λ ev, is_convert_call ev = true) evs = [].
Proof.
  induction 1 as [|ev evs Hev _ IH]; [done|].
  rewrite filter_cons, IH. by destruct ev.
Qed.

Section ConvertCalls.
Context (env : environment).

(** One turn of the loop calls the engine at most once, and once when the
    entry converts. *)
Lemma process_item_convert_calls md i item st f st' :
  process_item env md (working_dir env) i item st = (f, st') →
  ∃ evs, st_log st' = st_log st ++ evs
    ∧ length (filter (λ ev, is_convert_call ev = true) evs) ≤ 1
    ∧ (∀ r, f = Next r →
            length (filter (λ ev, is_convert_call ev = true) evs) = 1).
Proof.
  unfold process_item. intros H.
  destruct item as [| | | | | |m]; run_in H;
    try (injection H as <- <-; exists []; rewrite app_nil_r; split_and!; [done | compute; lia | done]).
  destruct (negb _ || negb _);
    [injection H as <- <-; exists []; rewrite app_nil_r; split_and!; [done | compute; lia | done]|].
  destruct (env_b64decode env _) as [file_bytes|e];
    [|injection H as <- <-; exists []; rewrite app_nil_r; split_and!; [done | compute; lia | done]].
  cbn in H.
  destruct (default JNull (m !! "fileName")) as [| | | |name| |]; cbn in H;
    try (injection H as <- <-; exists []; rewrite app_nil_r; split_and!; [done | compute; lia | done]).
  destruct (env_open env i _); cbn in H;
    [injection H as <- <-; eexists [_]; split_and!; [done | compute; lia | done]|].
  destruct (env_write env i _); cbn in H;
    [injection H as <- <-; eexists [_; _];
     split_and!; [by rewrite <- !app_assoc | compute; lia | done]|].
  destruct (env_convert env i md _ file_bytes); cbn in H;
    injection H as <- <-; eexists [_; _; _];
    (split_and!; [by rewrite <- !app_assoc | compute; lia | done]).
Qed.

Lemma process_items_convert_calls md i data acc st f st' :
  process_items env md (working_dir env) i data acc st = (f, st') →
  ∃ evs, st_log st' = st_log st ++ evs
    ∧ length (filter (λ ev, is_convert_call ev = true) evs) ≤ length data
    ∧ (∀ rs, f = Next rs →
             length (filter (λ ev, is_convert_call ev = true) evs)
             = length data).
Proof.
  revert i acc st. induction data as [|item data IH]; intros i acc st; cbn.
  - intros [= <- <-]. exists []. rewrite app_nil_r. split_and!; [done | compute; lia | done].
  - unfold mbind, M_bind.
    destruct (process_item env md (working_dir env) i item st)
      as [fl st1] eqn:Hitem.
    apply process_item_convert_calls in Hitem as (evs & Hlog & Hle & Heq).
    destruct fl as [r|r|e].
    + intros (evs' & Hlog' & Hle' & Heq')%IH.
      exists (evs ++ evs'). rewrite Hlog', Hlog, app_assoc, filter_app.
      rewrite length_app, (Heq r eq_refl).
      split_and!; [done | lia |]. intros rs ->. by rewrite (Heq' rs).
    + intros [= <- <-]. exists evs. split_and!; [done | lia | done].
    + intros [= <- <-]. exists evs. split_and!; [done | lia | done].
Qed.

Lemma filter_convert_cleanup st :
  filter (λ ev, is_convert_call ev = true) (st_log (cleanup env st))
  = filter (λ ev, is_convert_call ev = true) (st_log st).
Proof.
  destruct (cleanup_log env st) as [-> | [wd ->]]; [done|].
  by rewrite filter_app, app_nil_r.
Qed.

End ConvertCalls.

(** X8: [md.convert] is never called more often than [data] has entries,
    and it is called once for each entry when the response has status
    200. *)
Theorem engine_called_at_most_once_per_entry env
    (fields : gmap string json) data fs :
  length (filter (λ ev, is_convert_call ev = true)
            (st_log (convert_files env (conversion_request fields data) fs).2))
  ≤ length data
  ∧ (status (convert_files env (conversion_request fields data) fs).1 = 200%Z →
     length (filter (λ ev, is_convert_call ev = true)
               (st_log (convert_files env (conversion_request fields data)
                          fs).2))
     = length data).
Proof.
  destruct (convert_files_try env (conversion_request fields data)
              (State fs [] None)) as [f st] eqn:Hrun.
  pose proof Hrun as Hrun'.
  apply try_cases in Hrun' as [[-> [msg Hmsg]] | (m & data' & Hj & Hd & Hne & Hmk)].
  { unfold convert_files. rewrite Hrun. cbn.
    split; [lia|]. by rewrite Hmsg. }
  injection Hj as <-. rewrite lookup_insert_eq in Hd. injection Hd as <-.
  destruct Hmk as [(e & _ & -> & ->) | [Hmk _]].
  { unfold convert_files. rewrite Hrun. cbn [fst snd].
    rewrite filter_convert_cleanup. cbn [st_log].
    change (filter _ [CallMakedirs (working_dir env)]) with (@nil event).
    split; [cbn; lia | done]. }
  unfold conversion_request.
  rewrite (run_decompose env _ data fs) by (by rewrite ?lookup_insert_eq).
  destruct (make_engine env _ _) as [fl st1] eqn:E.
  apply make_engine_constructs in E as (_ & _ & (evs1 & Hlog1 & Hevs1) & Hnr).
  cbn [st_log] in Hlog1.
  assert (filter (λ ev, is_convert_call ev = true) (st_log st1) = []) as H1.
  { rewrite Hlog1, filter_app. cbn.
    by rewrite filter_convert_constructions. }
  destruct fl as [md|r|e]; [|by destruct (Hnr r)|].
  - destruct (process_items env md _ 0 data [] st1) as [fl st2] eqn:E2.
    pose proof E2 as (_ & _ & _ & _ & Hfl)%process_items_inv.
    apply process_items_convert_calls in E2 as (evs2 & Hlog2 & Hle & Heq).
    cbn [fst snd]. rewrite filter_convert_cleanup, Hlog2, filter_app, H1.
    cbn [app]. split; [done|].
    destruct fl as [rs|r|e]; [by eauto | |done].
    destruct Hfl as [msg ->]. done.
  - cbn [fst snd]. rewrite filter_convert_cleanup, H1. cbn. split; [lia|done].
Qed.

(** ** Entries that raise *)

Section Raises.
Context (env : environment).

(** As [run_to_entry], with the engine calls made so far. *)
Lemma run_to_entry_calls (fields : gmap string json) pre md results fs :
  reaches_loop env fields md → all_convert env md 0 pre results →
  ∃ st1,
    length (filter (λ ev, is_convert_call ev = true) (st_log st1))
    = length pre
    ∧ ∀ item post,
        convert_files env (conversion_request fields (pre ++ item :: post)) fs
        = let '(f, st) :=
            (r ← process_item env md (working_dir env) (length pre) item;
             rs ← process_items env md (working_dir env) (S (length pre)) post
                    (results ++ [r]);
             py_return (jsonify (JArr rs) 200)) st1 in
          (handle_exception f, cleanup env st).
Proof.
  intros Hloop Hall.
  set (st0 := State (makedirs_fs (locate env (working_dir env)) fs)
                    ([CallMakedirs (working_dir env)] ++ construction md)
                    (Some (working_dir env))).
  destruct (process_items_converts env md 0 pre results [] st0 Hall) as [st1 E].
  exists st1. split.
  { apply process_items_convert_calls in E as (evs & -> & _ & Heq).
    rewrite filter_app, length_app, (Heq _ eq_refl). cbn [st_log st0].
    rewrite filter_app, (filter_convert_constructions (construction md)).
    - done.
    - destruct md; by repeat constructor. }
  intros item post. unfold convert_files.
  rewrite (try_reaches_loop env fields _ md fs) by (done || by destruct pre).
  fold st0. unfold mbind, M_bind. rewrite process_items_app, E. cbn.
  unfold mbind, M_bind.
  by destruct (process_item env md (working_dir env) (length pre) item st1)
    as [[r|r|e] st2].
Qed.

(** An entry that decodes and cannot be saved. *)
Lemma process_item_save_error md i (m : gmap string json) name content
    file_bytes e st :
  m !! "fileName" = Some (JStr name) → name ≠ EmptyString →
  m !! "fileContent" = Some content → truthy content = true →
  env_b64decode env content = Returns file_bytes →
  save_error env i (path_join (working_dir env) name) = Some e →
  ∃ st', process_item env md (working_dir env) i (JObj m) st = (Raise e, st')
    ∧ filter (λ ev, is_convert_call ev = true) (st_log st')
      = filter (λ ev, is_convert_call ev = true) (st_log st).
Proof.
  intros Hn Hne Hc Htc Hd Hs. unfold process_item. run. rewrite Hn, Hc. cbn.
  apply truthy_str in Hne. cbn in Hne. rewrite Hne, Htc. cbn. rewrite Hd. run.
  unfold save_error in Hs.
  destruct (env_open env i _) as [e'|]; run.
  - injection Hs as ->. eexists. split; [done|]. cbn.
    by rewrite filter_app, app_nil_r.
  - rewrite Hs. run. eexists. split; [done|]. cbn.
    by rewrite !filter_app, !app_nil_r.
Qed.

(** An entry whose [fileName] is not a string, though not empty. *)
Lemma process_item_name_type_error md i (m : gmap string json) name content
    file_bytes st :
  m !! "fileName" = Some name → truthy name = true →
  (∀ s, name ≠ JStr s) →
  m !! "fileContent" = Some content → truthy content = true →
  env_b64decode env content = Returns file_bytes →
  process_item env md (working_dir env) i (JObj m) st
  = (Raise (TypeError
              ("join() argument must be str, bytes, or os.PathLike object, not '"
               +:+ type_name name +:+ "'")), st).
Proof.
  intros Hn Htn Hns Hc Htc Hd. unfold process_item. run. rewrite Hn, Hc. cbn.
  rewrite Htn, Htc. cbn. rewrite Hd. run.
  destruct name; try done. by destruct (Hns s).
Qed.

End Raises.

(** X6: when [open] or [f.write] raises for an entry that has a name and
    content that decodes, after entries that all converted, the response
    has status 500 and is the object whose single member [error] is the
    text of that exception, and [md.convert] was called for the entries
    before it only: neither for this entry nor for a later one. *)
Theorem save_failure_aborts env (fields : gmap string json) pre
    (m : gmap string json) post md results name content file_bytes e fs :
  reaches_loop env fields md →
  all_convert env md 0 pre results →
  m !! "fileName" = Some (JStr name) → name ≠ EmptyString →
  m !! "fileContent" = Some content → truthy content = true →
  env_b64decode env content = Returns file_bytes →
  save_error env (length pre) (path_join (working_dir env) name) = Some e →
  (convert_files env (conversion_request fields (pre ++ JObj m :: post)) fs).1
  = Response (Json (JObj {[ "error" := JStr (exn_str e) ]})) 500
  ∧ length (filter (λ ev, is_convert_call ev = true)
              (st_log (convert_files env
                         (conversion_request fields (pre ++ JObj m :: post))
                         fs).2))
    = length pre.
Proof.
  intros Hloop Hall Hn Hne Hc Htc Hd Hs.
  destruct (run_to_entry_calls env fields pre md results fs Hloop Hall)
    as (st1 & Hcalls & Hrun).
  destruct (process_item_save_error env md (length pre) m name content
              file_bytes e st1) as (st' & E & Hlog); try done.
  rewrite Hrun. unfold mbind, M_bind. rewrite E. cbn [fst snd].
  split; [done|]. by rewrite filter_convert_cleanup, Hlog.
Qed.

Lemma save_failure_aborts_witness :
  (convert_files
     (failing_env None None
        (Some (Exn "FileNotFoundError"
                 "[Errno 2] No such file or directory: '/tmp/1b4e28ba-2fa1-4d3b-a3f5-ef19b5a7633b/sub/a.txt'")))
     (conversion_request ∅
        ([] ++ Sample.file_entry "sub/a.txt" "aGVsbG8="
            :: [Sample.file_entry "b.txt" "aGk="]))
     Sample.fs).1
  = Response
      (Json (JObj {[ "error" :=
                       JStr "[Errno 2] No such file or directory: '/tmp/1b4e28ba-2fa1-4d3b-a3f5-ef19b5a7633b/sub/a.txt'" ]}))
      500
  ∧ length (filter (λ ev, is_convert_call ev = true)
              (st_log (convert_files
                         (failing_env None None
                            (Some (Exn "FileNotFoundError"
                                     "[Errno 2] No such file or directory: '/tmp/1b4e28ba-2fa1-4d3b-a3f5-ef19b5a7633b/sub/a.txt'")))
                         (conversion_request ∅
                            ([] ++ Sample.file_entry "sub/a.txt" "aGVsbG8="
                                :: [Sample.file_entry "b.txt" "aGk="]))
                         Sample.fs).2))
    = 0.
Proof.
  apply (save_failure_aborts
           (failing_env None None
              (Some (Exn "FileNotFoundError"
                       "[Errno 2] No such file or directory: '/tmp/1b4e28ba-2fa1-4d3b-a3f5-ef19b5a7633b/sub/a.txt'")))
           ∅ []
           {[ "fileName" := JStr "sub/a.txt";
              "fileContent" := JStr "aGVsbG8=" ]}
           [Sample.file_entry "b.txt" "aGk="] MarkItDown_plain []
           "sub/a.txt" (JStr "aGVsbG8=") ["h"; "e"; "l"; "l"; "o"]%byte
           (Exn "FileNotFoundError"
              "[Errno 2] No such file or directory: '/tmp/1b4e28ba-2fa1-4d3b-a3f5-ef19b5a7633b/sub/a.txt'")
           Sample.fs); try reflexivity.
  - repeat split.
  - constructor.
  - discriminate.
Defined.

(** X7: an entry whose [fileName] is truthy but no string (a number, [true],
    a non-empty array or object), with content that decodes, makes
    [os.path.join] raise: the response has status 500 and is the object
    whose single member [error] is the text of that [TypeError], which
    names the type of the value, and [md.convert] was called for the
    entries before it only. *)
Theorem file_name_that_is_not_a_string env (fields : gmap string json) pre
    (m : gmap string json) post md results name content file_bytes fs :
  reaches_loop env fields md →
  all_convert env md 0 pre results →
  m !! "fileName" = Some name → truthy name = true →
  (∀ s, name ≠ JStr s) →
  m !! "fileContent" = Some content → truthy content = true →
  env_b64decode env content = Returns file_bytes →
  (convert_files env (conversion_request fields (pre ++ JObj m :: post)) fs).1
  = Response
      (Json (JObj {[ "error" :=
                       JStr ("join() argument must be str, bytes, or os.PathLike object, not '"
                             +:+ type_name name +:+ "'") ]}))
      500
  ∧ length (filter (λ ev, is_convert_call ev = true)
              (st_log (convert_files env
                         (conversion_request fields (pre ++ JObj m :: post))
                         fs).2))
    = length pre.
Proof.
  intros Hloop Hall Hn Htn Hns Hc Htc Hd.
  destruct (run_to_entry_calls env fields pre md results fs Hloop Hall)
    as (st1 & Hcalls & Hrun).
  rewrite Hrun. unfold mbind, M_bind.
  rewrite (process_item_name_type_error env md (length pre) m name content
             file_bytes st1) by done.
  cbn [fst snd]. split; [done|]. by rewrite filter_convert_cleanup.
Qed.

Lemma file_name_that_is_not_a_string_witness :
  (convert_files Sample.env
     (conversion_request ∅
        ([] ++ JObj {[ "fileName" := JInt 5; "fileContent" := JStr "aGk=" ]}
            :: []))
     Sample.fs).1
  = Response
      (Json (JObj {[ "error" :=
                       JStr "join() argument must be str, bytes, or os.PathLike object, not 'int'" ]}))
      500
  ∧ length (filter (λ ev, is_convert_call ev = true)
              (st_log (convert_files Sample.env
                         (conversion_request ∅
                            ([] ++ JObj {[ "fileName" := JInt 5;
                                           "fileContent" := JStr "aGk=" ]}
                                :: []))
                         Sample.fs).2))
    = 0.
Proof.
  apply (file_name_that_is_not_a_string Sample.env ∅ []
           {[ "fileName" := JInt 5; "fileContent" := JStr "aGk=" ]}
           [] MarkItDown_plain [] (JInt 5) (JStr "aGk=") ["h"; "i"]%byte
           Sample.fs); try reflexivity.
  - repeat split.
  - constructor.
  - discriminate.
Defined.

(** X2: a body that is JSON but neither an object nor [null] (an array, a
    string, a number, a boolean) is answered with status 500 and the object
    whose single member [error] is the text of the [AttributeError] of
    [payload.get], which names the type of the value; no directory is
    created and nothing is called. *)
Theorem body_that_is_not_an_object env j fs :
  j ≠ JNull → is_dict j = false →
  convert_files env (Parsed j) fs
  = (Response
       (Json (JObj {[ "error" :=
                        JStr ("'" +:+ type_name j
                              +:+ "' object has no attribute 'get'") ]}))
       500,
     State fs [] None).
Proof. intros Hn Hd. by destruct j. Qed.

Lemma body_that_is_not_an_object_witness :
  convert_files Sample.env (Parsed (JArr [JInt 1])) Sample.fs
  = (Response
       (Json (JObj {[ "error" := JStr "'list' object has no attribute 'get'" ]}))
       500,
     State Sample.fs [] None).
Proof.
  apply (body_that_is_not_an_object Sample.env (JArr [JInt 1]) Sample.fs).
  - discriminate.
  - reflexivity.
Defined.

(** X3: when [os.makedirs] raises and the working directory did not exist
    before the request, the response has status 500 and is the object
    whose single member [error] is the text of that exception, and
    [os.makedirs] is the only call made: no engine is constructed, no entry
    is looked at and [shutil.rmtree] is not called. *)
Theorem makedirs_failure_is_reported env (fields : gmap string json) data
    e fs :
  data ≠ [] →
  env_makedirs env (working_dir env) = Some e →
  fs !! locate env (working_dir env) = None →
  (convert_files env (conversion_request fields data) fs).1
  = Response (Json (JObj {[ "error" := JStr (exn_str e) ]})) 500
  ∧ st_log (convert_files env (conversion_request fields data) fs).2
    = [CallMakedirs (working_dir env)].
Proof.
  intros Hne Hmk Hfresh. unfold convert_files, conversion_request.
  rewrite (try_run env _ data fs) by (by rewrite ?lookup_insert_eq).
  rewrite Hmk. cbn [handle_exception]. unfold cleanup, path_exists. cbn.
  rewrite bool_decide_eq_false_2; [done|]. rewrite Hfresh. by intros [? ?].
Qed.

Lemma makedirs_failure_is_reported_witness :
  (convert_files
     (failing_env (Some (Exn "PermissionError"
                           "[Errno 13] Permission denied: '/tmp/1b4e28ba-2fa1-4d3b-a3f5-ef19b5a7633b'"))
        None None)
     (conversion_request ∅ [Sample.file_entry "a.txt" "aGVsbG8="])
     Sample.fs).1
  = Response
      (Json (JObj {[ "error" :=
                       JStr "[Errno 13] Permission denied: '/tmp/1b4e28ba-2fa1-4d3b-a3f5-ef19b5a7633b'" ]}))
      500
  ∧ st_log (convert_files
              (failing_env (Some (Exn "PermissionError"
                                    "[Errno 13] Permission denied: '/tmp/1b4e28ba-2fa1-4d3b-a3f5-ef19b5a7633b'"))
                 None None)
              (conversion_request ∅ [Sample.file_entry "a.txt" "aGVsbG8="])
              Sample.fs).2
    = [CallMakedirs "/tmp/1b4e28ba-2fa1-4d3b-a3f5-ef19b5a7633b"].
Proof.
  apply (makedirs_failure_is_reported
           (failing_env (Some (Exn "PermissionError"
                                 "[Errno 13] Permission denied: '/tmp/1b4e28ba-2fa1-4d3b-a3f5-ef19b5a7633b'"))
              None None)
           ∅ [Sample.file_entry "a.txt" "aGVsbG8="]
           (Exn "PermissionError"
              "[Errno 13] Permission denied: '/tmp/1b4e28ba-2fa1-4d3b-a3f5-ef19b5a7633b'")
           Sample.fs).
  - discriminate.
  - reflexivity.
  - reflexivity.
Defined.

(** X4: when the constructor of the engine that [llmConfig] selects raises,
    [OpenAI] or [MarkItDown], the response has status 500 and is the
    object whose single member [error] is the text of that exception, and
    the calls made are [os.makedirs], the constructors up to the one that
    raised, and [shutil.rmtree] of the working directory: no entry is
    decoded, saved or converted. *)
Theorem engine_construction_failure env (fields : gmap string json) data
    e fs :
  data ≠ [] →
  env_makedirs env (working_dir env) = None →
  config_selects_engine (llm_config_of fields) = true →
  construction_error env (spec_llm_mode (llm_config_of fields)) = Some e →
  (convert_files env (conversion_request fields data) fs).1
  = Response (Json (JObj {[ "error" := JStr (exn_str e) ]})) 500
  ∧ st_log (convert_files env (conversion_request fields data) fs).2
    = [CallMakedirs (working_dir env)]
      ++ construction_attempt env (spec_llm_mode (llm_config_of fields))
      ++ [CallRmtree (working_dir env)].
Proof.
  intros Hne Hmk Hcfg Herr. unfold conversion_request.
  rewrite (run_decompose env _ data fs) by (by rewrite ?lookup_insert_eq).
  rewrite llm_config_of_insert, make_engine_attempt, Herr by done.
  cbn [fst snd]. split; [done|].
  rewrite cleanup_removes; [|done|apply makedirs_fs_exists].
  cbn [st_log]. by rewrite <- app_assoc.
Qed.

Lemma engine_construction_failure_witness :
  (convert_files
     (failing_env None
        (Some (Exn "OpenAIError" "The api_key client option must be set"))
        None)
     (conversion_request
        {[ "llmConfig" :=
             JObj {[ "openaiApiKey" := JNull; "llmModel" := JStr "gpt-4o" ]} ]}
        [Sample.file_entry "a.txt" "aGVsbG8="])
     Sample.fs).1
  = Response
      (Json (JObj {[ "error" := JStr "The api_key client option must be set" ]}))
      500
  ∧ st_log (convert_files
              (failing_env None
                 (Some (Exn "OpenAIError"
                          "The api_key client option must be set"))
                 None)
              (conversion_request
                 {[ "llmConfig" :=
                      JObj {[ "openaiApiKey" := JNull;
                              "llmModel" := JStr "gpt-4o" ]} ]}
                 [Sample.file_entry "a.txt" "aGVsbG8="])
              Sample.fs).2
    = [CallMakedirs "/tmp/1b4e28ba-2fa1-4d3b-a3f5-ef19b5a7633b";
       CallOpenAI (ClientKwargs JNull None);
       CallRmtree "/tmp/1b4e28ba-2fa1-4d3b-a3f5-ef19b5a7633b"].
Proof.
  refine (engine_construction_failure
            (failing_env None
               (Some (Exn "OpenAIError" "The api_key client option must be set"))
               None)
            {[ "llmConfig" :=
                 JObj {[ "openaiApiKey" := JNull;
                         "llmModel" := JStr "gpt-4o" ]} ]}
            [Sample.file_entry "a.txt" "aGVsbG8="]
            (Exn "OpenAIError" "The api_key client option must be set")
            Sample.fs _ _ _ _).
  - discriminate.
  - reflexivity.
  - reflexivity.
  - reflexivity.
Defined.

(** X5: when [llmConfig] is given but is no object, no [OpenAI] client is
    built.  Either the plain [MarkItDown()] is the one engine constructed,
    or no engine is constructed and the response is an error (a number or
    [true] makes the test [k in llm_config] raise; a string or an array
    that holds both key names makes [llm_config["openaiApiKey"]] raise).
    A falsy value ([false], [0], the empty string, the empty array) always
    gives the plain engine. *)
Theorem non_object_config_never_selects_llm env (fields : gmap string json)
    data fs :
  data ≠ [] →
  env_makedirs env (working_dir env) = None →
  is_dict (llm_config_of fields) = false →
  let calls :=
    filter (λ ev, is_construction ev = true)
      (st_log (convert_files env (conversion_request fields data) fs).2) in
  (calls = [CallMarkItDown MarkItDown_plain]
   ∨ (calls = []
      ∧ ∃ msg, (convert_files env (conversion_request fields data) fs).1
               = error_response msg))
  ∧ (truthy (llm_config_of fields) = false →
     calls = [CallMarkItDown MarkItDown_plain]).
Proof.
  intros Hne Hmk Hd calls.
  assert (calls = [CallMarkItDown MarkItDown_plain]
          ∨ (truthy (llm_config_of fields) = true ∧ calls = []
             ∧ ∃ msg, (convert_files env (conversion_request fields data) fs).1
                      = error_response msg)) as Hcases.
  { unfold calls, conversion_request.
    rewrite (run_decompose env _ data fs) by (by rewrite ?lookup_insert_eq).
    rewrite llm_config_of_insert.
    destruct (make_engine_non_object env (llm_config_of fields)
                (State (makedirs_fs (locate env (working_dir env)) fs)
                       [CallMakedirs (working_dir env)]
                       (Some (working_dir env))) Hd)
      as [-> | (Ht & e & ->)].
    - left. destruct (env_markitdown env MarkItDown_plain) as [e|].
      + cbn [snd]. by rewrite filter_construction_cleanup.
      + destruct (process_items env _ _ 0 data [] _) as [fl st2] eqn:E.
        apply process_items_inv in E as (_ & (evs & Hlog & Hevs) & _).
        cbn [snd]. rewrite filter_construction_cleanup, Hlog, filter_app.
        by rewrite (filter_construction_file_calls evs), app_nil_r.
    - right. cbn [fst snd]. rewrite filter_construction_cleanup.
      split_and!; [done | done | by eexists]. }
  split.
  - destruct Hcases as [? | (_ & ? & ?)]; [by left | by right].
  - intros Ht. destruct Hcases as [? | (Ht' & _)]; [done | congruence].
Qed.

Lemma non_object_config_never_selects_llm_witness :
  filter (λ ev, is_construction ev = true)
    (st_log (convert_files Sample.env
               (conversion_request {[ "llmConfig" := JInt 0 ]}
                  [Sample.file_entry "a.txt" "aGVsbG8="])
               Sample.fs).2)
  = [CallMarkItDown MarkItDown_plain].
Proof.
  refine (proj2 (non_object_config_never_selects_llm Sample.env
                   {[ "llmConfig" := JInt 0 ]}
                   [Sample.file_entry "a.txt" "aGVsbG8="] Sample.fs _ _ _) _).
  - discriminate.
  - reflexivity.
  - reflexivity.
  - reflexivity.
Defined.

(** ** Files saved outside the working directory *)

Lemma split_sep_parent base :
  has_sep base = false →
  split_sep ("../" +:+ base) EmptyString = [".."; base].
Proof.
  intros Hb. change ("../" +:+ base) with ("." +:+ "." +:+ String "/" base).
  change ("." +:+ "." +:+ String "/" base) with (".." +:+ String "/" base).
  rewrite split_sep_app_sep, (split_sep_plain base) by done.
  reflexivity.
Qed.

Lemma resolve_parent_name cwd a base parent leaf :
  has_sep base = false →
  base ≠ EmptyString → base ≠ "." → base ≠ ".." →
  resolve cwd a = parent ++ [leaf] →
  resolve cwd (path_join a ("../" +:+ base)) = parent ++ [base].
Proof.
  intros Hsep H1 H2 H3 Ha.
  rewrite resolve_path_join by done.
  rewrite split_sep_parent by done. cbn [fold_left].
  rewrite Ha. change (enter (parent ++ [leaf]) "..")
    with (removelast (parent ++ [leaf])).
  rewrite removelast_last. by apply enter_plain.
Qed.

Section Persist.
Context (env : environment).

(** An entry saved at a place outside the working directory: the bytes
    are there when the handler returns, unless a later entry is saved at
    the same place. *)
Lemma saved_outside_persists (fields : gmap string json) pre
    (m : gmap string json) post md results name content file_bytes fs :
  reaches_loop env fields md →
  all_convert env md 0 pre results →
  m !! "fileName" = Some (JStr name) → name ≠ EmptyString →
  m !! "fileContent" = Some content → truthy content = true →
  env_b64decode env content = Returns file_bytes →
  env_open env (length pre) (path_join (working_dir env) name) = None →
  env_write env (length pre) (path_join (working_dir env) name) = None →
  ¬ locate env (working_dir env)
    `prefix_of` locate env (path_join (working_dir env) name) →
  (∀ item, item ∈ post →
           ¬ saved_at env item
               (locate env (path_join (working_dir env) name))) →
  st_fs (convert_files env
           (conversion_request fields (pre ++ JObj m :: post)) fs).2
  !! locate env (path_join (working_dir env) name)
  = Some (File file_bytes).
Proof.
  intros Hloop Hall Hn Hne Hc Htc Hd Ho Hw Hout Hpost.
  destruct (run_to_entry env fields pre md results fs Hloop Hall)
    as (st1 & Hwd1 & Hrun).
  destruct (process_item_writes env md (length pre) m name content
              file_bytes st1) as (f & st2 & E & Hfs2 & _); try done.
  pose proof E as (Hwd2 & _)%process_item_inv.
  assert (∃ st3,
            (convert_files env
               (conversion_request fields (pre ++ JObj m :: post)) fs).2
            = cleanup env st3
            ∧ st_working_dir st3 = Some (working_dir env)
            ∧ st_fs st3 !! locate env (path_join (working_dir env) name)
              = Some (File file_bytes)) as (st3 & -> & Hwd3 & Hfs3).
  { rewrite Hrun. unfold mbind, M_bind. rewrite E.
    destruct f as [r|r|e];
      [|exists st2; split_and!; [done | congruence | done]..].
    destruct (process_items env md (working_dir env) (S (length pre)) post
                (results ++ [r]) st2) as [fl st3] eqn:E3.
    apply process_items_inv in E3 as (Hwd3 & _ & _ & Hloc & _).
    exists st3. split_and!; [by destruct fl | congruence |].
    destruct (Hloc (locate env (path_join (working_dir env) name)))
      as [-> | (item & Hin & Hsaved)]; [done|].
    by destruct (Hpost item Hin). }
  unfold cleanup. rewrite Hwd3.
  destruct (path_exists _ _); [|done]. cbn [st_fs].
  by rewrite rmtree_fs_outside.
Qed.

End Persist.

(** X11: an entry named [../base], with content that decodes and that is
    saved, after entries that all converted, is written beside the working
    directory, in the directory above it; when no later entry is saved at
    the same place, the file is still there after the [finally] block,
    with the decoded bytes, whatever the response.  Relative names climb out
    of the working directory as absolute names do. *)
Theorem parent_directory_name_escapes env (fields : gmap string json) pre
    (m : gmap string json) post md results base content file_bytes
    parent leaf fs :
  reaches_loop env fields md →
  all_convert env md 0 pre results →
  m !! "fileName" = Some (JStr ("../" +:+ base)) →
  has_sep base = false →
  base ≠ EmptyString → base ≠ "." → base ≠ ".." →
  m !! "fileContent" = Some content → truthy content = true →
  env_b64decode env content = Returns file_bytes →
  env_open env (length pre) (path_join (working_dir env) ("../" +:+ base))
  = None →
  env_write env (length pre) (path_join (working_dir env) ("../" +:+ base))
  = None →
  locate env (working_dir env) = parent ++ [leaf] → base ≠ leaf →
  (∀ (m' : gmap string json) name',
     JObj m' ∈ post → m' !! "fileName" = Some (JStr name') →
     locate env (path_join (working_dir env) name') ≠ parent ++ [base]) →
  locate env (path_join (working_dir env) ("../" +:+ base)) = parent ++ [base]
  ∧ st_fs (convert_files env
             (conversion_request fields (pre ++ JObj m :: post)) fs).2
    !! (parent ++ [base])
    = Some (File file_bytes).
Proof.
  intros Hloop Hall Hn Hsep H1 H2 H3 Hc Htc Hd Ho Hw Hwd Hleaf Hpost.
  assert (locate env (path_join (working_dir env) ("../" +:+ base))
          = parent ++ [base]) as Hloc
    by (by apply (resolve_parent_name _ _ _ _ leaf)).
  split; [done|]. rewrite <- Hloc.
  apply (saved_outside_persists env fields pre m post md results
           ("../" +:+ base) content file_bytes fs); try done.
  - rewrite Hloc, Hwd. intros [k Hk]. rewrite <- app_assoc in Hk.
    apply app_inv_head in Hk. by injection Hk.
  - intros item Hin (m' & name' & -> & Hn' & Heq).
    rewrite Hloc in Heq. by destruct (Hpost m' name' Hin Hn').
Qed.

Lemma parent_directory_name_escapes_witness :
  st_fs (convert_files Sample.env
           (conversion_request ∅
              ([] ++ Sample.file_entry "../leak.txt" "aGVsbG8=" :: []))
           Sample.fs).2
  !! (["tmp"] ++ ["leak.txt"])
  = Some (File ["h"; "e"; "l"; "l"; "o"]%byte).
Proof.
  refine (proj2 (parent_directory_name_escapes Sample.env ∅ []
                   {[ "fileName" := JStr ("../" +:+ "leak.txt");
                      "fileContent" := JStr "aGVsbG8=" ]}
                   [] MarkItDown_plain [] "leak.txt" (JStr "aGVsbG8=") _
                   ["tmp"] "1b4e28ba-2fa1-4d3b-a3f5-ef19b5a7633b" Sample.fs
                   _ _ _ _ _ _ _ _ _ _ _ _ _ _ _)); try reflexivity.
  - repeat split.
  - constructor.
  - discriminate.
  - discriminate.
  - discriminate.
  - discriminate.
  - intros m' name' Hin. by apply elem_of_nil in Hin.
Defined.

Lemma resolve_join_plain cwd a name :
  has_sep name = false →
  name ≠ EmptyString → name ≠ "." → name ≠ ".." →
  resolve cwd (path_join a name) = resolve cwd a ++ [name].
Proof.
  intros Hsep H1 H2 H3.
  rewrite resolve_path_join by (by apply has_sep_starts).
  rewrite split_sep_plain by done.
  change (EmptyString +:+ name) with name. cbn [fold_left].
  by apply enter_plain.
Qed.

(** X9: the body of the loop saves an entry whose name is a plain name (no
    [/], not empty, not [.] or [..]) directly in the working directory,
    under that name and with the decoded bytes, whether or not the
    conversion then succeeds. *)
Theorem plain_name_is_saved_in_the_directory env md i
    (m : gmap string json) name content file_bytes st :
  m !! "fileName" = Some (JStr name) →
  has_sep name = false → name ≠ EmptyString → name ≠ "." → name ≠ ".." →
  m !! "fileContent" = Some content → truthy content = true →
  env_b64decode env content = Returns file_bytes →
  save_error env i (path_join (working_dir env) name) = None →
  st_fs (process_item env md (working_dir env) i (JObj m) st).2
  !! (locate env (working_dir env) ++ [name])
  = Some (File file_bytes).
Proof.
  intros Hn Hsep H1 H2 H3 Hc Htc Hd Hs. unfold save_error in Hs.
  destruct (env_open env i (path_join (working_dir env) name)) eqn:Ho;
    [done|].
  destruct (process_item_writes env md i m name content file_bytes st)
    as (f & st' & -> & Hfs & _); try done.
  cbn [snd]. unfold locate in *.
  by rewrite <- (resolve_join_plain _ _ name).
Qed.

Lemma plain_name_is_saved_in_the_directory_witness :
  st_fs (process_item Sample.env MarkItDown_plain (working_dir Sample.env) 0
           (Sample.file_entry "a.txt" "aGVsbG8=")
           (State Sample.fs [] (Some (working_dir Sample.env)))).2
  !! ["tmp"; "1b4e28ba-2fa1-4d3b-a3f5-ef19b5a7633b"; "a.txt"]
  = Some (File ["h"; "e"; "l"; "l"; "o"]%byte).
Proof.
  apply (plain_name_is_saved_in_the_directory Sample.env MarkItDown_plain 0
           {[ "fileName" := JStr "a.txt"; "fileContent" := JStr "aGVsbG8=" ]}
           "a.txt" (JStr "aGVsbG8=") ["h"; "e"; "l"; "l"; "o"]%byte
           (State Sample.fs [] (Some (working_dir Sample.env))));
    try reflexivity; discriminate.
Defined.

Lemma resolve_join_dir_sep cwd d unique_id :
  d ≠ EmptyString → starts_with_sep unique_id = false →
  resolve cwd (path_join (d +:+ "/") unique_id)
  = resolve cwd (path_join d unique_id).
Proof.
  intros Hd Hu. rewrite !resolve_path_join by done.
  by rewrite resolve_dir_sep.
Qed.

(** X12: a separator at the end of a non-empty [MARKITDOWN_TMPDIR] makes no
    difference to where the working directory is: a value [d] other than
    the empty string and [d/] give the same directory, and leaving the
    variable unset, with its default [/tmp/], gives the same directory as
    setting it to [/tmp].  The empty value is the exception: it puts the
    working directory under the current directory, and [/] puts it under
    the root. *)
Theorem trailing_separator_of_the_base_directory env d :
  d ≠ EmptyString → starts_with_sep (env_uuid4 env) = false →
  locate (set_tmpdir (d +:+ "/") env) (working_dir (set_tmpdir (d +:+ "/") env))
  = locate (set_tmpdir d env) (working_dir (set_tmpdir d env))
  ∧ (env_getenv_tmpdir env = None →
     locate env (working_dir env)
     = locate (set_tmpdir "/tmp" env) (working_dir (set_tmpdir "/tmp" env)))
  ∧ locate (set_tmpdir EmptyString env)
      (working_dir (set_tmpdir EmptyString env))
    = resolve (env_cwd env) (env_uuid4 env)
  ∧ locate (set_tmpdir "/" env) (working_dir (set_tmpdir "/" env))
    = resolve [] (env_uuid4 env).
Proof.
  intros Hd Hu. split_and!.
  - by apply resolve_join_dir_sep.
  - intros Hnone. unfold locate, working_dir, MARKITDOWN_TMPDIR.
    rewrite Hnone. cbn [default set_tmpdir env_getenv_tmpdir env_cwd env_uuid4].
    by apply (resolve_join_dir_sep _ "/tmp").
  - unfold locate, working_dir, MARKITDOWN_TMPDIR, path_join.
    cbn [default set_tmpdir env_getenv_tmpdir env_cwd env_uuid4].
    by rewrite Hu.
  - unfold locate, working_dir, MARKITDOWN_TMPDIR.
    cbn [default set_tmpdir env_getenv_tmpdir env_cwd env_uuid4].
    rewrite resolve_path_join by done. unfold resolve at 2. by rewrite Hu.
Qed.

Lemma trailing_separator_of_the_base_directory_witness :
  locate (set_tmpdir ("/data" +:+ "/") Sample.env)
    (working_dir (set_tmpdir ("/data" +:+ "/") Sample.env))
  = locate (set_tmpdir "/data" Sample.env)
      (working_dir (set_tmpdir "/data" Sample.env)).
Proof.
  refine (proj1 (trailing_separator_of_the_base_directory Sample.env "/data"
                   _ _)).
  - discriminate.
  - reflexivity.
Defined.

(** ** The [DEBUG] setting *)

Lemma lower_ascii_t c : lower_ascii c = "t"%char ↔ c = "t"%char ∨ c = "T"%char.
Proof.
  destruct c as [[] [] [] [] [] [] [] []]; vm_compute;
    split; intros H; try discriminate; try (destruct H; discriminate);
    auto.
Qed.

Lemma lower_ascii_r c : lower_ascii c = "r"%char ↔ c = "r"%char ∨ c = "R"%char.
Proof.
  destruct c as [[] [] [] [] [] [] [] []]; vm_compute;
    split; intros H; try discriminate; try (destruct H; discriminate);
    auto.
Qed.

Lemma lower_ascii_u c : lower_ascii c = "u"%char ↔ c = "u"%char ∨ c = "U"%char.
Proof.
  destruct c as [[] [] [] [] [] [] [] []]; vm_compute;
    split; intros H; try discriminate; try (destruct H; discriminate);
    auto.
Qed.

Lemma lower_ascii_e c : lower_ascii c = "e"%char ↔ c = "e"%char ∨ c = "E"%char.
Proof.
  destruct c as [[] [] [] [] [] [] [] []]; vm_compute;
    split; intros H; try discriminate; try (destruct H; discriminate);
    auto.
Qed.

(** X13: debug mode is on exactly when the variable [DEBUG] is set to the
    word [true] in any mix of upper and lower case; unset, or set to
    anything else ([1], [yes], [true] followed by a space), it is off. *)
Theorem DEBUG_spellings v :
  DEBUG v = true
  ↔ ∃ c1 c2 c3 c4,
      v = Some (String c1 (String c2 (String c3 (String c4 EmptyString))))
      ∧ (c1 = "t" ∨ c1 = "T")%char ∧ (c2 = "r" ∨ c2 = "R")%char
      ∧ (c3 = "u" ∨ c3 = "U")%char ∧ (c4 = "e" ∨ c4 = "E")%char.
Proof.
  unfold DEBUG. rewrite String.eqb_eq. split.
  - destruct v as [s|]; [|done]. cbn [default].
    destruct s as [|c1 [|c2 [|c3 [|c4 [|c5 s]]]]]; try done.
    cbn [py_lower]. intros [= H1 H2 H3 H4].
    exists c1, c2, c3, c4. split; [done|].
    by rewrite <- lower_ascii_t, <- lower_ascii_r, <- lower_ascii_u,
      <- lower_ascii_e.
  - intros (c1 & c2 & c3 & c4 & -> & H1 & H2 & H3 & H4). cbn.
    apply lower_ascii_t in H1. apply lower_ascii_r in H2.
    apply lower_ascii_u in H3. apply lower_ascii_e in H4.
    by rewrite H1, H2, H3, H4.
Qed.
